(** * live_canvas.js: a shared drawing surface over a publish/subscribe bus

    A shallow embedding of the [LiveCanvas] class of [src/live_canvas.js].
    The instance is a record; its methods are computations in a small monad
    of mutable state with exceptions, so that an exception leaves behind the
    mutations made before it, as in JavaScript.  The host collaborators
    (canvas context, console, the Paho client, the clock, the layout) are
    recorded by what the program asks of them.

    The peer table [this.users] is modelled by its own properties, as a finite
    map from property keys to records; keys that a bare object inherits from
    [Object.prototype] are outside the model. *)

From Stdlib Require Import ZArith QArith Qcanon Floats Uint63 Lia.
From stdpp Require Import gmap strings list fin_maps.

Local Open Scope string_scope.
Local Open Scope Z_scope.
Local Open Scope list_scope.

(** ** Numbers

    The program's arithmetic is the four operations of the Number type.  It is
    written once over this interface and read at two instances: [binary64],
    the arithmetic the program runs on, and [exact], rationals with one
    not-a-number element, the arithmetic of the reals that the geometry of the
    program is designed in. *)

Class JSNumber (num : Type) := {
  NaN : num;
  of_Z : Z → num;
  num_add : num → num → num;
  num_sub : num → num → num;
  num_mul : num → num → num;
  num_div : num → num → num;
  (** the relation [a <= b] of the language, false on NaN *)
  num_le : num → num → bool;
}.

Definition float_of_Z (z : Z) : float :=
  if (0 <=? z)%Z then PrimFloat.of_uint63 (Uint63.of_Z z)
  else PrimFloat.opp (PrimFloat.of_uint63 (Uint63.of_Z (- z))).

#[export] Instance binary64 : JSNumber float := {
  NaN := PrimFloat.nan;
  of_Z := float_of_Z;
  num_add := PrimFloat.add;
  num_sub := PrimFloat.sub;
  num_mul := PrimFloat.mul;
  num_div := PrimFloat.div;
  num_le := PrimFloat.leb;
}.

(** Exact arithmetic: [None] stands for every value that is not a finite
    number, which is what a division by zero yields. *)
Abbreviation xnum := (option Qc).

Definition xlift (f : Qc → Qc → Qc) (a b : xnum) : xnum :=
  match a, b with
  | Some p, Some q => Some (f p q)
  | _, _ => None
  end.

Definition xdiv (a b : xnum) : xnum :=
  match a, b with
  | Some p, Some q => if decide (q = 0%Qc) then None else Some (p / q)%Qc
  | _, _ => None
  end.

Definition xle (a b : xnum) : bool :=
  match a, b with
  | Some p, Some q => bool_decide (p ≤ q)%Qc
  | _, _ => false
  end.

#[export] Instance exact : JSNumber xnum := {
  NaN := None;
  of_Z := λ z, Some (Qc_of_Z z);
  num_add := xlift Qcplus;
  num_sub := xlift Qcminus;
  num_mul := xlift Qcmult;
  num_div := xdiv;
  num_le := xle;
}.

(** A coordinate is normalized when it lies in [0,1]. *)
Definition normalized {num} `{JSNumber num} (a : num) : bool :=
  num_le (of_Z 0) a && num_le a (of_Z 1).

(** ** Values

    What [JSON.parse] can return, and [undefined].  An object lists its own
    properties in order; every key occurs once. *)

#[warnings="-register-all"]
Inductive value (num : Type) : Type :=
  | VUndefined
  | VNull
  | VBool (b : bool)
  | VNum (n : num)
  | VStr (s : string)
  | VArr (elements : list (value num))
  | VObj (properties : list (string * value num)).

Arguments VUndefined {num}.
Arguments VNull {num}.
Arguments VBool {num} b.
Arguments VNum {num} n.
Arguments VStr {num} s.
Arguments VArr {num} elements.
Arguments VObj {num} properties.

Inductive exn : Type := TypeError | SyntaxError.

(** The outcome of evaluating an expression: a value, or a thrown exception. *)
Inductive completion (A : Type) : Type :=
  | Normal (a : A)
  | Throw (e : exn).

Arguments Normal {A} a.
Arguments Throw {A} e.

#[export] Instance completion_ret : MRet completion := λ A a, Normal a.
#[export] Instance completion_bind : MBind completion := λ A B f c,
  match c with
  | Normal a => f a
  | Throw e => Throw e
  end.

Fixpoint assoc {A} (k : string) (l : list (string * A)) : option A :=
  match l with
  | [] => None
  | (k', a) :: l => if String.eqb k k' then Some a else assoc k l
  end.

(** [o[k] = v] on an object literal: the property keeps its place when it
    exists and is appended otherwise. *)
Fixpoint assoc_set {A} (k : string) (a : A) (l : list (string * A)) : list (string * A) :=
  match l with
  | [] => [(k, a)]
  | (k', a') :: l => if String.eqb k k' then (k, a) :: l else (k', a') :: assoc_set k a l
  end.

(** [v.k] for one of the names [id], [type], [x], [y], [color], which no
    array, string, number or boolean carries. *)
Definition get {num} (v : value num) (k : string) : completion (value num) :=
  match v with
  | VUndefined | VNull => Throw TypeError
  | VObj properties => Normal (default VUndefined (assoc k properties))
  | _ => Normal VUndefined
  end.

(** [v === s] for a string [s]. *)
Definition strict_eq_string {num} (v : value num) (s : string) : bool :=
  match v with
  | VStr s' => String.eqb s' s
  | _ => false
  end.

(** [v !== undefined] *)
Definition is_defined {num} (v : value num) : bool :=
  match v with
  | VUndefined => false
  | _ => true
  end.

(** ** The instance and its collaborators *)

(** A peer record [{x, y, color, lastSeen}]; a field never assigned reads
    [undefined].  [lastSeen] holds a reading of [Date.now()], a whole number
    of milliseconds. *)
Record user (num : Type) : Type := User {
  user_x : value num;
  user_y : value num;
  user_color : value num;
  user_lastSeen : option Z;
}.

Arguments User {num} _ _ _ _.
Arguments user_x {num} _.
Arguments user_y {num} _.
Arguments user_color {num} _.
Arguments user_lastSeen {num} _.

(** The object literal [{}]. *)
Definition empty_user {num} : user num := User VUndefined VUndefined VUndefined None.

(** ** The language runtime

    Number and text conversions, [JSON.parse] ([None] when it throws a
    [SyntaxError]), [JSON.stringify], and [Object.entries], which lists the
    own properties of the peer table, each once, in the order the runtime
    enumerates them. *)
Class Runtime (num : Type) := {
  NumberToString : num → string;
  StringToNumber : string → num;
  JSON_parse : string → option (value num);
  JSON_stringify : value num → string;
  Object_entries : gmap string (user num) → list (string * user num);
  Object_entries_spec : ∀ m, Object_entries m ≡ₚ map_to_list m;
}.

Section Coercions.
Context {num : Type} {N : JSNumber num} {R : Runtime num}.

(** [ToString]: an array joins its elements with commas, a hole-like
    element ([null], [undefined]) giving the empty string.  A parsed object
    has no callable property: with a [toString] property of its own no
    conversion method is left and the conversion throws; otherwise it
    inherits the default one. *)
Fixpoint ToString (v : value num) : completion string :=
  match v with
  | VUndefined => Normal "undefined"
  | VNull => Normal "null"
  | VBool true => Normal "true"
  | VBool false => Normal "false"
  | VNum n => Normal (NumberToString n)
  | VStr s => Normal s
  | VArr elements =>
      (fix join (l : list (value num)) : completion string :=
         match l with
         | [] => Normal ""
         | e :: l' =>
             s ← match e with
                 | VUndefined | VNull => Normal ""
                 | _ => ToString e
                 end;
             match l' with
             | [] => Normal s
             | _ :: _ => r ← join l'; Normal (s +:+ "," +:+ r)
             end
         end) elements
  | VObj properties =>
      match assoc "toString" properties with
      | Some _ => Throw TypeError
      | None => Normal "[object Object]"
      end
  end.

(** The key under which [o[v]] reads and writes. *)
Definition ToPropertyKey (v : value num) : completion string := ToString v.

(** [ToNumber]: arrays and objects go through their string conversion. *)
Definition ToNumber (v : value num) : completion num :=
  match v with
  | VUndefined => Normal NaN
  | VNull => Normal (of_Z 0)
  | VBool true => Normal (of_Z 1)
  | VBool false => Normal (of_Z 0)
  | VNum n => Normal n
  | VStr s => Normal (StringToNumber s)
  | VArr _ | VObj _ => s ← ToString v; Normal (StringToNumber s)
  end.

(** [v * n] *)
Definition times (v : value num) (n : num) : completion num :=
  a ← ToNumber v; Normal (num_mul a n).

End Coercions.

(** The calls made on the 2d context, in the order they are made. [arc] is
    always called with start angle 0 and end angle 2π. *)
Inductive ctx_call (num : Type) : Type :=
  | beginPath
  | moveTo (px py : num)
  | lineTo (px py : num)
  | set_strokeStyle (v : value num)
  | set_lineWidth (n : num)
  | stroke
  | set_fillStyle (v : value num)
  | fillRect (px py w h : num)
  | arc (px py radius : num)
  | fill
  | set_font (s : string)
  | fillText (text : string) (px py : num).

Arguments beginPath {num}.
Arguments moveTo {num} px py.
Arguments lineTo {num} px py.
Arguments set_strokeStyle {num} v.
Arguments set_lineWidth {num} n.
Arguments stroke {num}.
Arguments set_fillStyle {num} v.
Arguments fillRect {num} px py w h.
Arguments arc {num} px py radius.
Arguments fill {num}.
Arguments set_font {num} s.
Arguments fillText {num} text px py.

Inductive console_entry : Type :=
  | console_error (msg : string)
  | console_log (msg : string).

(** A [Paho.MQTT.Message]. *)
Record Message : Type := {
  payloadString : string;
  destinationName : string;
}.

(** The Paho client, by what the program observes of it and hands to it. *)
Record Client : Type := {
  isConnected : bool;
  subscriptions : list string;
  sent : list Message;
}.

Record MouseEvent (num : Type) : Type := {
  clientX : num;
  clientY : num;
}.

Arguments clientX {num} _.
Arguments clientY {num} _.

(** The result of [getBoundingClientRect()]. *)
Record DOMRect (num : Type) : Type := {
  rect_left : num;
  rect_top : num;
}.

Arguments rect_left {num} _.
Arguments rect_top {num} _.

Record LiveCanvas (num : Type) : Type := {
  myId : string;
  myColor : string;
  users : gmap string (user num);
  isDrawing : bool;
  (** [undefined] until the first pointer-down *)
  lastPos : value num;
  (** [undefined] when the Paho library is not loaded *)
  client : option Client;
  canvas_width : num;
  canvas_height : num;
  ctx : list (ctx_call num);
  console : list console_entry;
}.

Arguments myId {num} _.
Arguments myColor {num} _.
Arguments users {num} _.
Arguments isDrawing {num} _.
Arguments lastPos {num} _.
Arguments client {num} _.
Arguments canvas_width {num} _.
Arguments canvas_height {num} _.
Arguments ctx {num} _.
Arguments console {num} _.

Definition topic : string := "jvav/live/interaction".

Section Updates.
Context {num : Type}.
Implicit Type st : LiveCanvas num.

Definition set_users (f : gmap string (user num) → gmap string (user num)) st :=
  {| myId := myId st; myColor := myColor st; users := f (users st);
     isDrawing := isDrawing st; lastPos := lastPos st; client := client st;
     canvas_width := canvas_width st; canvas_height := canvas_height st;
     ctx := ctx st; console := console st |}.

Definition set_isDrawing (b : bool) st :=
  {| myId := myId st; myColor := myColor st; users := users st;
     isDrawing := b; lastPos := lastPos st; client := client st;
     canvas_width := canvas_width st; canvas_height := canvas_height st;
     ctx := ctx st; console := console st |}.

Definition set_lastPos (v : value num) st :=
  {| myId := myId st; myColor := myColor st; users := users st;
     isDrawing := isDrawing st; lastPos := v; client := client st;
     canvas_width := canvas_width st; canvas_height := canvas_height st;
     ctx := ctx st; console := console st |}.

Definition set_client (c : option Client) st :=
  {| myId := myId st; myColor := myColor st; users := users st;
     isDrawing := isDrawing st; lastPos := lastPos st; client := c;
     canvas_width := canvas_width st; canvas_height := canvas_height st;
     ctx := ctx st; console := console st |}.

Definition set_canvas (w h : num) st :=
  {| myId := myId st; myColor := myColor st; users := users st;
     isDrawing := isDrawing st; lastPos := lastPos st; client := client st;
     canvas_width := w; canvas_height := h;
     ctx := ctx st; console := console st |}.

Definition set_ctx (f : list (ctx_call num) → list (ctx_call num)) st :=
  {| myId := myId st; myColor := myColor st; users := users st;
     isDrawing := isDrawing st; lastPos := lastPos st; client := client st;
     canvas_width := canvas_width st; canvas_height := canvas_height st;
     ctx := f (ctx st); console := console st |}.

Definition set_console (f : list console_entry → list console_entry) st :=
  {| myId := myId st; myColor := myColor st; users := users st;
     isDrawing := isDrawing st; lastPos := lastPos st; client := client st;
     canvas_width := canvas_width st; canvas_height := canvas_height st;
     ctx := ctx st; console := f (console st) |}.
End Updates.

(** ** Statements: mutable state with exceptions

    A statement runs on the instance and ends normally or by throwing; either
    way the instance is left as the statement made it. *)

Definition JS (num A : Type) : Type := LiveCanvas num → LiveCanvas num * completion A.

#[export] Instance JS_ret {num} : MRet (JS num) := λ A a st, (st, Normal a).
#[export] Instance JS_bind {num} : MBind (JS num) := λ A B f m st,
  match m st with
  | (st', Normal a) => f a st'
  | (st', Throw e) => (st', Throw e)
  end.

Section Statements.
Context {num : Type}.

Definition eval {A} (c : completion A) : JS num A := λ st, (st, c).
Definition read {A} (f : LiveCanvas num → A) : JS num A := λ st, (st, Normal (f st)).
Definition modify (f : LiveCanvas num → LiveCanvas num) : JS num unit :=
  λ st, (f st, Normal tt).

(** the empty statement *)
Definition skip : JS num unit := mret tt.

(** [try { body } catch (e) { handler }] *)
Definition try_catch (body : JS num unit) (handler : exn → JS num unit) : JS num unit :=
  λ st,
    match body st with
    | (st', Normal _) => (st', Normal tt)
    | (st', Throw e) => handler e st'
    end.

(** [for (const a of l) { body }]; no body here leaves by [break]. *)
Fixpoint for_of {A} (l : list A) (body : A → JS num unit) : JS num unit :=
  match l with
  | [] => skip
  | a :: l => body a;; for_of l body
  end.

Definition call (c : ctx_call num) : JS num unit := modify (set_ctx (λ l, l ++ [c])).
Definition log (e : console_entry) : JS num unit := modify (set_console (λ l, l ++ [e])).

(** A statement keeps an observation [f] of the instance when running it
    never changes what [f] reads, however it ends. *)
Definition keeps {A B} (f : LiveCanvas num → B) (m : JS num A) : Prop :=
  ∀ st, f (m st).1 = f st.

(** The number of segments stroked on the context so far. *)
Definition is_stroke (c : ctx_call num) : bool :=
  match c with
  | stroke => true
  | _ => false
  end.

Definition strokes (l : list (ctx_call num)) : nat := length (List.filter is_stroke l).
End Statements.

(** ** The program *)

Section Program.
Context {num : Type} {N : JSNumber num} {R : Runtime num}.

(** [ctx.strokeStyle = v] and [ctx.fillStyle = v]: the context converts a
    value that is not a string to one, which can throw. *)
Definition assign_style (style : value num → ctx_call num) (v : value num) : JS num unit :=
  _ ← eval (ToString v);
  call (style v).

(** *** Geometry / render surface *)

Definition resize (clientWidth : num) : JS num unit :=
  modify (set_canvas clientWidth (of_Z 300)).

Definition drawStroke (start end_ color : value num) : JS num unit :=
  call beginPath;;
  w ← read canvas_width;
  h ← read canvas_height;
  sx ← eval (get start "x");
  px ← eval (times sx w);
  sy ← eval (get start "y");
  py ← eval (times sy h);
  call (moveTo px py);;
  ex ← eval (get end_ "x");
  qx ← eval (times ex w);
  ey ← eval (get end_ "y");
  qy ← eval (times ey h);
  call (lineTo qx qy);;
  assign_style set_strokeStyle color;;
  call (set_lineWidth (of_Z 2));;
  call stroke.

(** *** Transport adapter *)

Definition initMQTT (Paho : bool) : JS num unit :=
  if Paho then
    (* the client is created and asked to connect; the outcome arrives later *)
    modify (set_client (Some {| isConnected := false; subscriptions := []; sent := [] |}))
  else
    log (console_error "Paho MQTT client not loaded").

Definition publish (data : list (string * value num)) : JS num unit :=
  c ← read client;
  match c with
  | None => eval (Throw TypeError)
  | Some c =>
      if negb (isConnected c) then skip
      else
        id ← read myId;
        color ← read myColor;
        let message :=
          {| payloadString :=
               JSON_stringify
                 (VObj (assoc_set "color" (VStr color) (assoc_set "id" (VStr id) data)));
             destinationName := topic |} in
        modify (set_client (Some {| isConnected := isConnected c;
                                    subscriptions := subscriptions c;
                                    sent := sent c ++ [message] |}))
  end.

(** *** Peer state store *)

(** The record is updated in place and stored back under its key at the
    end; nothing can throw between the first field assignment and the
    store, so the table is updated in one step here. *)
Definition handleRemoteData (data : value num) (now : Z) : JS num unit :=
  id ← eval (get data "id");
  key ← eval (ToPropertyKey id);
  us ← read users;
  let user := default empty_user (us !! key) in
  type ← eval (get data "type");
  user' ←
    (if strict_eq_string type "move" then
       x ← eval (get data "x");
       y ← eval (get data "y");
       color ← eval (get data "color");
       mret (User x y color (Some now))
     else if strict_eq_string type "draw" then
       x ← eval (get data "x");
       y ← eval (get data "y");
       color ← eval (get data "color");
       (if is_defined (user_x user) then
          drawStroke (VObj [("x", user_x user); ("y", user_y user)])
                     (VObj [("x", x); ("y", y)]) color
        else skip);;
       mret (User x y color (Some now))
     else mret user);
  modify (set_users <[key := user']>).

Definition onMessageArrived (message : Message) (now : Z) : JS num unit :=
  try_catch
    (data ← eval (match JSON_parse (payloadString message) with
                  | Some v => Normal v
                  | None => Throw SyntaxError
                  end);
     id ← eval (get data "id");
     me ← read myId;
     if strict_eq_string id me then skip (* Ignore self *)
     else handleRemoteData data now)
    (λ e, log (console_error "MQTT Parse Error")).

(** *** Local input capture *)

Definition getPos (rect : DOMRect num) (e : MouseEvent num) : JS num (value num) :=
  w ← read canvas_width;
  h ← read canvas_height;
  mret (VObj [("x", VNum (num_div (num_sub (clientX e) (rect_left rect)) w));
              ("y", VNum (num_div (num_sub (clientY e) (rect_top rect)) h))]).

Definition onMove (rect : DOMRect num) (e : MouseEvent num) : JS num unit :=
  pos ← getPos rect e;
  x ← eval (get pos "x");
  y ← eval (get pos "y");
  let data := [("type", VStr "move"); ("x", x); ("y", y)] in
  drawing ← read isDrawing;
  if (drawing : bool) then
    let data := assoc_set "type" (VStr "draw") data in
    last ← read lastPos;
    color ← read myColor;
    drawStroke last pos (VStr color);;
    modify (set_lastPos pos);;
    publish data
  else
    publish data.

Definition onDown (rect : DOMRect num) (e : MouseEvent num) : JS num unit :=
  modify (set_isDrawing true);;
  pos ← getPos rect e;
  modify (set_lastPos pos).

Definition onUp : JS num unit := modify (set_isDrawing false).

(** *** Frame loop *)

(** [now - user.lastSeen > 10000]; without a [lastSeen] the difference is
    NaN and the comparison false. *)
Definition stale (now : Z) (u : user num) : bool :=
  match user_lastSeen u with
  | Some t => 10000 <? now - t
  | None => false
  end.

Definition animate_entry (now : Z) (entry : string * user num) : JS num unit :=
  let '(id, user) := entry in
  if stale now user then modify (set_users (delete id))
  else if is_defined (user_x user) then
    call beginPath;;
    assign_style set_fillStyle (user_color user);;
    w ← read canvas_width;
    h ← read canvas_height;
    px ← eval (times (user_x user) w);
    py ← eval (times (user_y user) h);
    call (arc px py (of_Z 3));;
    call fill;;
    assign_style set_fillStyle (VStr "#fff");;
    call (set_font "10px monospace");;
    tx ← eval (times (user_x user) w);
    ty ← eval (times (user_y user) h);
    call (fillText (String.substring 0 6 id) (num_add tx (of_Z 5)) (num_sub ty (of_Z 5)))
  else skip.

(** One frame; the host has been asked for the next one before anything
    else is done. *)
Definition animate (now : Z) : JS num unit :=
  assign_style set_fillStyle (VStr "rgba(0, 0, 0, 0.05)");;
  w ← read canvas_width;
  h ← read canvas_height;
  call (fillRect (of_Z 0) (of_Z 0) w h);;
  us ← read users;
  for_of (Object_entries us) (animate_entry now).

(** *** Construction and the event loop *)

Definition initCanvas (clientWidth : num) : JS num unit := resize clientWidth.

(** [new LiveCanvas(containerId)]: the identity is drawn at random, the
    container's width is read from the layout, a canvas starts 300 by 150. *)
Definition constructor (id color : string) (clientWidth : num) (Paho : bool) (now : Z)
  : LiveCanvas num * completion unit :=
  (initCanvas clientWidth;; initMQTT Paho;; animate now)
    {| myId := id; myColor := color; users := ∅; isDrawing := false;
       lastPos := VUndefined; client := None;
       canvas_width := of_Z 300; canvas_height := of_Z 150;
       ctx := []; console := [] |}.

(** What the host delivers to the listeners the constructor registered.
    Touch events reach the same handlers with their first touch point. *)
Inductive event : Type :=
  | window_resize (clientWidth : num)
  | mousemove (rect : DOMRect num) (e : MouseEvent num)
  | mousedown (rect : DOMRect num) (e : MouseEvent num)
  | mouseup
  | mouseout
  | touchmove (rect : DOMRect num) (e : MouseEvent num)
  | touchstart (rect : DOMRect num) (e : MouseEvent num)
  | touchend
  | animation_frame (now : Z)
  | connect_success
  | connect_failure
  | connection_lost (errorMessage : string)
  | message_arrived (message : Message) (now : Z).

(** The client's callbacks exist only when the client does. *)
Definition with_client (k : Client → JS num unit) : JS num unit :=
  c ← read client;
  match c with
  | Some c => k c
  | None => skip
  end.

Definition dispatch (ev : event) : JS num unit :=
  match ev with
  | window_resize clientWidth => resize clientWidth
  | mousemove rect e | touchmove rect e => onMove rect e
  | mousedown rect e | touchstart rect e => onDown rect e
  | mouseup | mouseout | touchend => onUp
  | animation_frame now => animate now
  | connect_success =>
      (* the client is connected when it calls [onSuccess], which logs and subscribes *)
      with_client (λ c,
        modify (set_client (Some {| isConnected := true;
                                    subscriptions := subscriptions c;
                                    sent := sent c |}));;
        log (console_log "MQTT Connected");;
        modify (set_client (Some {| isConnected := true;
                                    subscriptions := subscriptions c ++ [topic];
                                    sent := sent c |})))
  | connect_failure => with_client (λ _, log (console_log "MQTT Connection Failed"))
  | connection_lost errorMessage =>
      with_client (λ c,
        modify (set_client (Some {| isConnected := false;
                                    subscriptions := subscriptions c;
                                    sent := sent c |}));;
        log (console_log ("MQTT Connection Lost: " +:+ errorMessage)))
  | message_arrived message now => with_client (λ _, onMessageArrived message now)
  end.

(** An exception that leaves a listener is reported by the host; the
    instance stays as the listener left it and the next event is served. *)
Definition run (evs : list event) (st : LiveCanvas num) : LiveCanvas num :=
  foldl (λ st ev, (dispatch ev st).1) st evs.

(** *** Vocabulary of the properties *)

(** The point [{x: a, y: b}]. *)
Definition point (a b : value num) : value num := VObj [("x", a); ("y", b)].

(** The wire payload
    [{"type": type, "x": x, "y": y, "id": id, "color": color}] once parsed. *)
Definition wire_event (type : string) (x y : num) (id color : string) : value num :=
  VObj [("type", VStr type); ("x", VNum x); ("y", VNum y);
        ("id", VStr id); ("color", VStr color)].

(** The calls of one [drawStroke] between two points given in pixels. *)
Definition segment (px py qx qy : num) (color : value num) : list (ctx_call num) :=
  [beginPath; moveTo px py; lineTo qx qy; set_strokeStyle color;
   set_lineWidth (of_Z 2); stroke].

(** A record whose position and colour the frame loop can convert to
    numbers and text. *)
Definition renderable (u : user num) : Prop :=
  (∃ s, ToString (user_color u) = Normal s)
  ∧ (∃ a, ToNumber (user_x u) = Normal a)
  ∧ (∃ b, ToNumber (user_y u) = Normal b).

(** The record a handled event [data] leaves under its key at time [now]:
    a move or a draw overwrites every field, anything else leaves the
    record [old] as it is. *)
Definition written (data : value num) (now : Z) (old u : user num) : Prop :=
  u = old
  ∨ ∃ x y color,
      get data "x" = Normal x ∧ get data "y" = Normal y
      ∧ get data "color" = Normal color ∧ u = User x y color (Some now).

(** The message [message] is filed under the key [key]: it parses, its id
    is not the local one and converts to [key]. *)
Definition filed_under (me : string) (message : Message) (key : string)
    (data : value num) : Prop :=
  ∃ id,
    JSON_parse (payloadString message) = Some data
    ∧ get data "id" = Normal id
    ∧ strict_eq_string id me = false
    ∧ ToPropertyKey id = Normal key.

(** No id but the local one itself converts to the local key. *)
Definition foreign (me : string) (message : Message) : Prop :=
  ∀ data id,
    JSON_parse (payloadString message) = Some data →
    get data "id" = Normal id →
    ToPropertyKey id = Normal me →
    id = VStr me.

End Program.

Set Warnings "-inexact-float".

(** ** Sample runs

    A runtime over binary64 for the concrete runs below.  [JSON.parse] is
    given on the payload texts that the runs deliver, with the value the
    parser returns for each; every other text of the runs is not JSON.  No
    run converts a number to text or a text to a number, so these two
    conversions are left constant, and the serialized text is not inspected.
    [Object.entries] enumerates in the order of the finite map. *)

Definition quote : string := String (Ascii.ascii_of_nat 34) "".

(** A JSON string literal. *)
Definition json_string (s : string) : string := quote +:+ s +:+ quote.

(** The text [{"type":type,"x":x,"y":y,"id":id,"color":color}], each value
    given as its JSON text. *)
Definition json_event (type x y id color : string) : string :=
  "{" +:+ json_string "type" +:+ ":" +:+ type
      +:+ "," +:+ json_string "x" +:+ ":" +:+ x
      +:+ "," +:+ json_string "y" +:+ ":" +:+ y
      +:+ "," +:+ json_string "id" +:+ ":" +:+ id
      +:+ "," +:+ json_string "color" +:+ ":" +:+ color +:+ "}".

Definition text_move : string :=
  json_event (json_string "move") "0.5" "0.5" (json_string "u1") (json_string "red").
Definition text_draw : string :=
  json_event (json_string "draw") "0.6" "0.5" (json_string "u1") (json_string "red").
Definition text_self : string :=
  json_event (json_string "move") "0.5" "0.5" (json_string "user_42") (json_string "red").
(** the id is the array [["user_42"]] *)
Definition text_array_id : string :=
  json_event (json_string "move") "0.5" "0.5" ("[" +:+ json_string "user_42" +:+ "]")
    (json_string "red").
Definition text_far : string :=
  json_event (json_string "move") "5" "5" (json_string "u2") (json_string "red").
Definition text_ping : string :=
  json_event (json_string "ping") "0.5" "0.5" (json_string "u3") (json_string "red").
Definition text_old : string :=
  json_event (json_string "move") "0.5" "0.5" (json_string "old") (json_string "red").
Definition text_new : string :=
  json_event (json_string "move") "0.5" "0.5" (json_string "new") (json_string "red").
Definition text_empty_object : string := "{}".
Definition text_garbage : string := "not json".

Definition sample_texts : list (string * value float) :=
  [(text_move, wire_event "move" 0.5%float 0.5%float "u1" "red");
   (text_draw, wire_event "draw" 0.6%float 0.5%float "u1" "red");
   (text_self, wire_event "move" 0.5%float 0.5%float "user_42" "red");
   (text_array_id,
    VObj [("type", VStr "move"); ("x", VNum 0.5%float); ("y", VNum 0.5%float);
          ("id", VArr [VStr "user_42"]); ("color", VStr "red")]);
   (text_far, wire_event "move" 5%float 5%float "u2" "red");
   (text_ping, wire_event "ping" 0.5%float 0.5%float "u3" "red");
   (text_old, wire_event "move" 0.5%float 0.5%float "old" "red");
   (text_new, wire_event "move" 0.5%float 0.5%float "new" "red");
   (text_empty_object, VObj [])].

#[export] Instance sample_runtime : Runtime float := {
  NumberToString := λ _, "NaN";
  StringToNumber := λ _, PrimFloat.nan;
  JSON_parse := λ text, assoc text sample_texts;
  JSON_stringify := λ _, "";
  Object_entries := map_to_list;
  Object_entries_spec := λ m, reflexivity (map_to_list m);
}.

Definition message_of (text : string) : Message :=
  {| payloadString := text; destinationName := topic |}.

(** The instance of user_42 on a container 800 wide, with and without the
    Paho library, constructed at time 0. *)
Definition sample_canvas : LiveCanvas float :=
  (constructor "user_42" "hsl(200, 100%, 70%)" 800%float true 0).1.

Definition sample_canvas_alone : LiveCanvas float :=
  (constructor "user_42" "hsl(200, 100%, 70%)" 800%float false 0).1.

(** The canvas on the page, its corner at the origin of the viewport. *)
Definition sample_rect : DOMRect float := {| rect_left := 0%float; rect_top := 0%float |}.

(** The same geometry in exact arithmetic. *)
Definition exact_canvas : LiveCanvas xnum :=
  {| myId := "user_42"; myColor := "hsl(200, 100%, 70%)"; users := ∅; isDrawing := false;
     lastPos := VUndefined; client := None;
     canvas_width := of_Z 800; canvas_height := of_Z 300; ctx := []; console := [] |}.

Definition exact_rect : DOMRect xnum := {| rect_left := of_Z 10; rect_top := of_Z 20 |}.

(** A session: the client connects, a peer moves, a frame passes, the local
    user's own move comes back from the bus, and a text that is not JSON
    arrives. *)
Definition sample_session : list (@event float) :=
  [connect_success; message_arrived (message_of text_move) 1000;
   animation_frame 2000; message_arrived (message_of text_self) 3000;
   message_arrived (message_of text_garbage) 3500].


(** The client has connected. *)
Definition connected_canvas : LiveCanvas float := run [connect_success] sample_canvas.

(** The instance in a container of width 0. *)
Definition collapsed_canvas : LiveCanvas float :=
  (constructor "user_42" "hsl(200, 100%, 70%)" 0%float true 0).1.

(** ** Vocabulary of the further properties *)

Section Vocabulary.
Context {num : Type} {N : JSNumber num} {R : Runtime num}.

(** The position [getPos] computes for the pointer event [e]. *)
Definition position (rect : DOMRect num) (e : MouseEvent num) (st : LiveCanvas num)
  : value num :=
  point (VNum (num_div (num_sub (clientX e) (rect_left rect)) (canvas_width st)))
        (VNum (num_div (num_sub (clientY e) (rect_top rect)) (canvas_height st))).

(** The pixel at which [drawStroke] puts that position. *)
Definition pixel (rect : DOMRect num) (e : MouseEvent num) (st : LiveCanvas num)
  : num * num :=
  (num_mul (num_div (num_sub (clientX e) (rect_left rect)) (canvas_width st))
           (canvas_width st),
   num_mul (num_div (num_sub (clientY e) (rect_top rect)) (canvas_height st))
           (canvas_height st)).

(** The calls that stroke the segments from [p] through the points [ps],
    each starting where the one before it ended. *)
Fixpoint polyline (color : value num) (p : num * num) (ps : list (num * num))
  : list (ctx_call num) :=
  match ps with
  | [] => []
  | q :: ps => segment p.1 p.2 q.1 q.2 color ++ polyline color q ps
  end.

(** The intent [onMove] hands to [publish] for the pointer event [e]. *)
Definition intent (type : string) (rect : DOMRect num) (e : MouseEvent num)
    (st : LiveCanvas num) : list (string * value num) :=
  [("type", VStr type);
   ("x", VNum (num_div (num_sub (clientX e) (rect_left rect)) (canvas_width st)));
   ("y", VNum (num_div (num_sub (clientY e) (rect_top rect)) (canvas_height st)))].

(** The message [publish] sends for the intent [data]. *)
Definition outgoing (st : LiveCanvas num) (data : list (string * value num)) : Message :=
  {| payloadString :=
       JSON_stringify
         (VObj (assoc_set "color" (VStr (myColor st)) (assoc_set "id" (VStr (myId st)) data)));
     destinationName := topic |}.

(** The messages handed to the client so far; none when there is no client. *)
Definition outbox (st : LiveCanvas num) : list Message :=
  match client st with
  | Some c => sent c
  | None => []
  end.

(** Whether the client exists and reports connected. *)
Definition online (st : LiveCanvas num) : bool :=
  match client st with
  | Some c => isConnected c
  | None => false
  end.

(** While drawing, the anchor of the stroke is a point of numbers. *)
Definition anchored (st : LiveCanvas num) : Prop :=
  isDrawing st = true → ∃ a b, lastPos st = point (VNum a) (VNum b).





(** A pointer or touch move. *)
Definition is_move (ev : @event num) : bool :=
  match ev with
  | mousemove _ _ | touchmove _ _ => true
  | _ => false
  end.

(** The width of the container at its last resize, [w] when there was none. *)
Definition last_width (w : num) (evs : list (@event num)) : num :=
  foldl (λ w ev, match ev with window_resize w' => w' | _ => w end) w evs.

(** A frame or an arriving message. *)
Definition is_remote (ev : @event num) : bool :=
  match ev with
  | animation_frame _ | message_arrived _ _ => true
  | _ => false
  end.

(** The pixel at which a receiver puts the position a sender computed for
    the pointer event [e]. *)
Definition remote_pixel (rect : DOMRect num) (e : MouseEvent num)
    (sender receiver : LiveCanvas num) : num * num :=
  (num_mul (num_div (num_sub (clientX e) (rect_left rect)) (canvas_width sender))
           (canvas_width receiver),
   num_mul (num_div (num_sub (clientY e) (rect_top rect)) (canvas_height sender))
           (canvas_height receiver)).

(** The object [publish] serializes: [{...data, id: myId, color: myColor}]. *)
Definition stamped (st : LiveCanvas num) (data : list (string * value num)) : value num :=
  VObj (assoc_set "color" (VStr (myColor st)) (assoc_set "id" (VStr (myId st)) data)).

(** [JSON.parse] reads [v] back from the text [JSON.stringify] gives it. *)
Definition reads_back (v : value num) : Prop := JSON_parse (JSON_stringify v) = Some v.

(** The messages sent since [st]. *)
Definition sent_since (st st' : LiveCanvas num) : list Message :=
  drop (length (outbox st)) (outbox st').

(** The messages [ms] arriving at the times [ts]. *)
Definition arrivals (ms : list Message) (ts : list Z) : list (@event num) :=
  zip_with message_arrived ms ts.

End Vocabulary.

(** More payload texts: a draw whose colour is the object [{"toString":1}],
    a bare number, and [null]. *)
Definition text_bad_colour : string :=
  json_event (json_string "draw") "0.6" "0.5" (json_string "u1")
    ("{" +:+ json_string "toString" +:+ ":1}").
Definition text_number : string := "42".
Definition text_null : string := "null".

Definition more_texts : list (string * value float) :=
  sample_texts ++
  [(text_bad_colour,
    VObj [("type", VStr "draw"); ("x", VNum 0.6%float); ("y", VNum 0.5%float);
          ("id", VStr "u1"); ("color", VObj [("toString", VNum 1%float)])]);
   (text_number, VNum 42%float);
   (text_null, VNull)].

(** The sample runtime with [JSON.parse] given on these texts as well. *)
Definition wider_runtime : Runtime float := {|
  NumberToString := λ _, "NaN";
  StringToNumber := λ _, PrimFloat.nan;
  JSON_parse := λ text, assoc text more_texts;
  JSON_stringify := λ _, "";
  Object_entries := map_to_list;
  Object_entries_spec := λ m, reflexivity (map_to_list m);
|}.

(** Two instances that talk to each other.  [JSON.stringify] is given on
    the events of five fields whose coordinates are 0.5 or 0.6, as the
    gesture below sends them, and [JSON.parse] on their texts. *)
Definition coordinate_text (x : float) : string :=
  if PrimFloat.eqb x 0.5%float then "0.5"
  else if PrimFloat.eqb x 0.6%float then "0.6"
  else "null".

Definition relay_stringify (v : value float) : string :=
  match v with
  | VObj [(_, VStr type); (_, VNum x); (_, VNum y); (_, VStr id); (_, VStr color)] =>
      json_event (json_string type) (coordinate_text x) (coordinate_text y)
        (json_string id) (json_string color)
  | _ => ""
  end.

Definition text_own_move : string :=
  json_event (json_string "move") "0.5" "0.5" (json_string "user_42")
    (json_string "hsl(200, 100%, 70%)").
Definition text_own_draw : string :=
  json_event (json_string "draw") "0.6" "0.5" (json_string "user_42")
    (json_string "hsl(200, 100%, 70%)").

Definition relay_texts : list (string * value float) :=
  [(text_own_move, wire_event "move" 0.5%float 0.5%float "user_42" "hsl(200, 100%, 70%)");
   (text_own_draw, wire_event "draw" 0.6%float 0.5%float "user_42" "hsl(200, 100%, 70%)")].

Definition relay_runtime : Runtime float := {|
  NumberToString := λ _, "NaN";
  StringToNumber := λ _, PrimFloat.nan;
  JSON_parse := λ text, assoc text relay_texts;
  JSON_stringify := relay_stringify;
  Object_entries := map_to_list;
  Object_entries_spec := λ m, reflexivity (map_to_list m);
|}.

(** The connected instance of user_7 on a container 400 wide. *)
Definition peer_canvas : LiveCanvas float :=
  run [connect_success] (constructor "user_7" "hsl(20, 100%, 70%)" 400%float true 0).1.

(** The pointer at the middle of the 800 by 300 canvas, and 80 pixels to
    the right of it. *)
Definition sample_press : MouseEvent float := {| clientX := 400%float; clientY := 150%float |}.
Definition sample_drag : MouseEvent float := {| clientX := 480%float; clientY := 150%float |}.

(** The peer ["u1"] has moved to (0.5, 0.5) at time 1000. *)
Definition one_peer : LiveCanvas float :=
  run [message_arrived (message_of text_move) 1000] connected_canvas.

(** * Properties *)

Section Frames.
Context {num : Type}.
Implicit Types (st : LiveCanvas num).

Lemma keeps_ret {A B} (f : LiveCanvas num → B) (a : A) : keeps f (mret a : JS num A).
Proof. intros st. reflexivity. Qed.

Lemma keeps_skip {B} (f : LiveCanvas num → B) : keeps f skip.
Proof. intros st. reflexivity. Qed.

Lemma keeps_eval {A B} (f : LiveCanvas num → B) (c : completion A) : keeps f (eval c).
Proof. intros st. reflexivity. Qed.

Lemma keeps_read {A B} (f : LiveCanvas num → B) (g : LiveCanvas num → A) : keeps f (read g).
Proof. intros st. reflexivity. Qed.

Lemma keeps_modify {B} (f : LiveCanvas num → B) (g : LiveCanvas num → LiveCanvas num) :
  (∀ st, f (g st) = f st) → keeps f (modify g).
Proof. intros Hg st. apply Hg. Qed.

Lemma keeps_bind {A A' B} (f : LiveCanvas num → B) (m : JS num A) (k : A → JS num A') :
  keeps f m → (∀ a, keeps f (k a)) → keeps f (m ≫= k).
Proof.
  intros Hm Hk st. unfold mbind, JS_bind. specialize (Hm st).
  destruct (m st) as [st' [a|e]]; simpl in *; [|assumption].
  rewrite Hk. assumption.
Qed.

Lemma keeps_try_catch {B} (f : LiveCanvas num → B) (m : JS num unit) (h : exn → JS num unit) :
  keeps f m → (∀ e, keeps f (h e)) → keeps f (try_catch m h).
Proof.
  intros Hm Hh st. unfold try_catch. specialize (Hm st).
  destruct (m st) as [st' [a|e]]; simpl in *; [assumption|].
  rewrite Hh. assumption.
Qed.

Lemma keeps_for_of {A B} (f : LiveCanvas num → B) (l : list A) (body : A → JS num unit) :
  (∀ a, keeps f (body a)) → keeps f (for_of l body).
Proof.
  intros Hb. induction l as [|a l IH]; simpl.
  - apply keeps_skip.
  - apply keeps_bind; [apply Hb | intros _; apply IH].
Qed.

Lemma for_of_cons {A} (a : A) (l : list A) (body : A → JS num unit) st :
  for_of (a :: l) body st =
  match body a st with
  | (st', Normal _) => for_of l body st'
  | (st', Throw e) => (st', Throw e)
  end.
Proof. reflexivity. Qed.

Lemma strokes_app (l l' : list (ctx_call num)) : strokes (l ++ l') = (strokes l + strokes l')%nat.
Proof. unfold strokes. rewrite List.filter_app, length_app. reflexivity. Qed.

Lemma strokes_snoc (l : list (ctx_call num)) c :
  strokes (l ++ [c]) = (strokes l + if is_stroke c then 1 else 0)%nat.
Proof. rewrite strokes_app. unfold strokes at 2. simpl. destruct (is_stroke c); reflexivity. Qed.
End Frames.

(** Decomposes a statement into its primitive steps; what remains are the
    side conditions of the mutations. *)
Ltac keeps_step :=
  lazymatch goal with
  | |- keeps _ (if ?b then _ else _) => destruct b
  | |- keeps _ (match ?x with _ => _ end) => destruct x
  | |- keeps _ skip => apply keeps_skip
  | |- keeps _ (mret _) => apply keeps_ret
  | |- keeps _ (eval _) => apply keeps_eval
  | |- keeps _ (read _) => apply keeps_read
  | |- keeps _ (_ ≫= _) => apply keeps_bind; [|intros ?]
  | |- keeps _ (try_catch _ _) => apply keeps_try_catch; [|intros ?]
  | |- keeps _ (for_of _ _) => apply keeps_for_of; intros ?
  | |- keeps _ (modify _) => apply keeps_modify; intros ?
  end.

Ltac keeps_all :=
  repeat first
    [ keeps_step
    | progress unfold call, log, assign_style, drawStroke, publish, getPos, resize,
        handleRemoteData, onMessageArrived, onMove, onDown, onUp, animate_entry, animate,
        initCanvas, initMQTT, with_client ].

Section Properties.
Context {num : Type} {N : JSNumber num} {R : Runtime num}.

Implicit Types (st : LiveCanvas num) (u : user num) (v : value num).

(** No handler touches the identity. *)
Lemma dispatch_keeps_myId ev : keeps myId (dispatch ev).
Proof. destruct ev; simpl; keeps_all; reflexivity. Qed.

Lemma drawStroke_keeps_users a b c : keeps users (drawStroke a b c).
Proof. keeps_all; reflexivity. Qed.

Lemma onMove_keeps_users rect e : keeps users (onMove rect e).
Proof. keeps_all; reflexivity. Qed.

Lemma animate_keeps_strokes now : keeps (λ st, strokes (ctx st)) (animate now).
Proof. keeps_all; simpl; rewrite ?strokes_snoc; simpl; try lia; reflexivity. Qed.

Lemma drawStroke_keeps_console a b c : keeps console (drawStroke a b c).
Proof. keeps_all; reflexivity. Qed.

Lemma drawStroke_keeps_client a b c : keeps client (drawStroke a b c).
Proof. keeps_all; reflexivity. Qed.

Lemma handleRemoteData_spec data now st :
  match handleRemoteData data now st with
  | (st', Normal _) =>
      ∃ id key u',
        get data "id" = Normal id ∧ ToPropertyKey id = Normal key
        ∧ written data now (default empty_user (users st !! key)) u'
        ∧ users st' = <[key := u']> (users st) ∧ console st' = console st
  | (st', Throw _) => users st' = users st ∧ console st' = console st
  end.
Proof.
  unfold handleRemoteData, mbind, JS_bind, eval, read, modify.
  destruct (get data "id") as [id|] eqn:Hid; [|done].
  destruct (ToPropertyKey id) as [key|] eqn:Hkey; [|done].
  destruct (get data "type") as [type|]; [|done].
  destruct (strict_eq_string type "move").
  { destruct (get data "x") as [x|] eqn:Hx; [|done].
    destruct (get data "y") as [y|] eqn:Hy; [|done].
    destruct (get data "color") as [color|] eqn:Hc; [|done].
    simpl. exists id, key, (User x y color (Some now)).
    split_and!; try done. right. eauto 10. }
  destruct (strict_eq_string type "draw").
  { destruct (get data "x") as [x|] eqn:Hx; [|done].
    destruct (get data "y") as [y|] eqn:Hy; [|done].
    destruct (get data "color") as [color|] eqn:Hc; [|done].
    destruct (is_defined (user_x (default empty_user (users st !! key)))).
    - pose proof (drawStroke_keeps_users
        (VObj [("x", user_x (default empty_user (users st !! key)));
               ("y", user_y (default empty_user (users st !! key)))])
        (VObj [("x", x); ("y", y)]) color st) as Hu.
      pose proof (drawStroke_keeps_console
        (VObj [("x", user_x (default empty_user (users st !! key)));
               ("y", user_y (default empty_user (users st !! key)))])
        (VObj [("x", x); ("y", y)]) color st) as Hl.
      destruct (drawStroke _ _ _ st) as [st1 [[]|e]]; simpl in *; [|done].
      exists id, key, (User x y color (Some now)).
      rewrite Hu, Hl. split_and!; try done. right. eauto 10.
    - simpl. exists id, key, (User x y color (Some now)).
      split_and!; try done. right. eauto 10. }
  simpl. exists id, key, (default empty_user (users st !! key)).
  split_and!; try done. by left.
Qed.

(** The handler never lets an exception out. *)
Lemma onMessageArrived_normal message now st :
  (onMessageArrived message now st).2 = Normal tt.
Proof.
  unfold onMessageArrived, try_catch.
  match goal with |- context [match ?b st with _ => _ end] => destruct (b st) as [st' [[]|e]] end;
    reflexivity.
Qed.

(** What a message does to the table: nothing, or one record written under
    the key of its id; when the error is logged the table is untouched. *)
Lemma onMessageArrived_spec message now st :
  let st' := (onMessageArrived message now st).1 in
  (users st' = users st
   ∧ (console st' = console st
      ∨ console st' = console st ++ [console_error "MQTT Parse Error"]))
  ∨ (∃ key data u',
       filed_under (myId st) message key data
       ∧ written data now (default empty_user (users st !! key)) u'
       ∧ users st' = <[key := u']> (users st)
       ∧ console st' = console st).
Proof.
  unfold onMessageArrived, try_catch, mbind, JS_bind, eval, read, log, modify.
  destruct (JSON_parse (payloadString message)) as [data|] eqn:Hp; [|left; simpl; auto].
  destruct (get data "id") as [id|] eqn:Hid; [|left; simpl; auto].
  destruct (strict_eq_string id (myId st)) eqn:Hme; [left; simpl; auto|].
  pose proof (handleRemoteData_spec data now st) as Hh.
  destruct (handleRemoteData data now st) as [st1 [[]|e]]; simpl.
  - destruct Hh as (id' & key & u' & Hid' & Hkey & Hw & Hu & Hl).
    right. exists key, data, u'. split_and!; try done.
    exists id. rewrite Hid in Hid'. injection Hid' as <-. done.
  - destruct Hh as [Hu Hl]. left. rewrite Hu, Hl. auto.
Qed.

(** *** The frame loop *)

(** A participant of the data model, with numbers for its position and a
    string for its colour, is renderable. *)
Lemma participant_renderable (x y : num) (color : string) (lastSeen : option Z) :
  renderable (User (VNum x) (VNum y) (VStr color) lastSeen).
Proof. repeat split; eexists; reflexivity. Qed.

Lemma animate_entry_spec now id u st :
  let r := animate_entry now (id, u) st in
  users r.1 = (if stale now u then delete id (users st) else users st)
  ∧ (stale now u = true → r.2 = Normal tt)
  ∧ (renderable u → r.2 = Normal tt).
Proof.
  unfold animate_entry. destruct (stale now u) eqn:Hs.
  { simpl. auto. }
  split_and!; [ | done | ].
  - match goal with
    | |- users (?m st).1 = _ => assert (Hk : keeps users m) by (keeps_all; reflexivity)
    end.
    apply Hk.
  - intros ((s & Hc) & (a & Hx) & (b & Hy)).
    destruct (is_defined (user_x u)); [|reflexivity].
    unfold assign_style, times, mbind, JS_bind, eval, read, call, modify.
    simpl. rewrite Hc. simpl. rewrite Hx. simpl. rewrite Hy. reflexivity.
Qed.

Lemma animate_entries_spec now es st :
  let r := for_of es (animate_entry now) st in
  (∀ id, users r.1 !! id = users st !! id
         ∨ (users r.1 !! id = None ∧ ∃ u, (id, u) ∈ es ∧ stale now u = true))
  ∧ (r.2 = Normal tt →
     ∀ id u, (id, u) ∈ es → stale now u = true → users r.1 !! id = None)
  ∧ ((∀ id u, (id, u) ∈ es → stale now u = false → renderable u) → r.2 = Normal tt).
Proof.
  revert st. induction es as [|[id0 u0] es IH]; intros st.
  { simpl. split_and!; [auto | | done]. intros _ id u Hin. by apply elem_of_nil in Hin. }
  rewrite for_of_cons.
  destruct (animate_entry_spec now id0 u0 st) as (Hu1 & Hs1 & Hr1).
  destruct (animate_entry now (id0, u0) st) as [st1 [[]|e]]; cbn [fst snd] in *.
  - destruct (IH st1) as (IHu & IHs & IHr). split_and!.
    + intros id. destruct (IHu id) as [Heq | (Hnone & u & Hin & Hst)].
      * rewrite Heq, Hu1. destruct (stale now u0) eqn:Hs0; [|by left].
        destruct (decide (id = id0)) as [->|Hne].
        -- rewrite lookup_delete_eq. right. split; [done|].
           exists u0. split; [apply elem_of_cons; by left | done].
        -- rewrite lookup_delete_ne by done. by left.
      * right. split; [done|]. exists u. split; [apply elem_of_cons; by right | done].
    + intros Hn id u Hin Hst. apply elem_of_cons in Hin as [[= -> ->] | Hin].
      * destruct (IHu id0) as [Heq | [Hnone _]]; [|done].
        rewrite Heq, Hu1, Hst. apply lookup_delete_eq.
      * by apply (IHs Hn id u).
    + intros Hren. apply IHr. intros id u Hin. apply (Hren id u), elem_of_cons. by right.
  - split_and!.
    + intros id. rewrite Hu1. destruct (stale now u0) eqn:Hs0; [|by left].
      destruct (decide (id = id0)) as [->|Hne].
      * rewrite lookup_delete_eq. right. split; [done|].
        exists u0. split; [apply elem_of_cons; by left | done].
      * rewrite lookup_delete_ne by done. by left.
    + done.
    + intros Hren. destruct (stale now u0) eqn:Hs0.
      * by specialize (Hs1 eq_refl).
      * apply Hr1, (Hren id0 u0); [apply elem_of_cons; by left | done].
Qed.

Lemma elem_of_Object_entries (m : gmap string (user num)) id u :
  (id, u) ∈ Object_entries m ↔ m !! id = Some u.
Proof. rewrite (Object_entries_spec m). apply elem_of_map_to_list. Qed.

Lemma animate_spec now st :
  let r := animate now st in
  (∀ id, users r.1 !! id = users st !! id
         ∨ (users r.1 !! id = None ∧ ∃ u, users st !! id = Some u ∧ stale now u = true))
  ∧ (r.2 = Normal tt →
     ∀ id u, users st !! id = Some u → stale now u = true → users r.1 !! id = None)
  ∧ ((∀ id u, users st !! id = Some u → stale now u = false → renderable u) →
     r.2 = Normal tt).
Proof.
  unfold animate, assign_style, mbind, JS_bind, eval, read, call, modify.
  simpl.
  match goal with |- context [for_of _ _ ?s] => set (st0 := s) end.
  destruct (animate_entries_spec now (Object_entries (users st)) st0) as (Hu & Hs & Hr).
  change (users st0) with (users st) in *.
  destruct (for_of (Object_entries (users st)) (animate_entry now) st0) as [st1 c]; simpl in *.
  split_and!.
  - intros id. destruct (Hu id) as [Heq | (Hnone & u & Hin & Hst)]; [by left|].
    right. split; [done|]. exists u. split; [by apply elem_of_Object_entries | done].
  - intros Hn id u Hin Hst. apply (Hs Hn id u); [by apply elem_of_Object_entries | done].
  - intros Hren. apply Hr. intros id u Hin. apply (Hren id u). by apply elem_of_Object_entries.
Qed.

Lemma animate_keeps_fresh now st id u :
  users st !! id = Some u → stale now u = false →
  users (animate now st).1 !! id = Some u.
Proof.
  intros Hu Hs. destruct (animate_spec now st) as (Hk & _ & _).
  destruct (Hk id) as [-> | (_ & u' & Hu' & Hs')]; [done|].
  rewrite Hu in Hu'. injection Hu' as <-. congruence.
Qed.

(** *** What one event does to the table *)

Lemma dispatch_users ev st key :
  let st' := (dispatch ev st).1 in
  users st' !! key = users st !! key
  ∨ users st' !! key = None
  ∨ ∃ message now data u',
      ev = message_arrived message now
      ∧ filed_under (myId st) message key data
      ∧ written data now (default empty_user (users st !! key)) u'
      ∧ users st' !! key = Some u'.
Proof.
  destruct ev; simpl;
    try (left; f_equal;
         match goal with |- users (?m st).1 = _ =>
           assert (Hk : keeps users m) by (keeps_all; reflexivity); apply Hk end).
  - destruct (animate_spec now st) as (Hk & _ & _).
    destruct (Hk key) as [-> | [-> _]]; auto.
  - unfold with_client, mbind, JS_bind, read. destruct (client st); [|by left].
    destruct (onMessageArrived_spec message now st) as [[-> _] | (k & data & u' & Hf & Hw & -> & _)];
      [by left|].
    destruct (decide (k = key)) as [->|Hne].
    + right; right. exists message, now, data, u'. by rewrite lookup_insert_eq.
    + left. by rewrite lookup_insert_ne.
Qed.

Lemma run_app evs evs' st : run (evs ++ evs') st = run evs' (run evs st).
Proof. apply foldl_app. Qed.

Lemma run_keeps_myId evs st : myId (run evs st) = myId st.
Proof.
  revert st. induction evs as [|ev evs IH]; intros st; [done|].
  simpl. rewrite IH. apply dispatch_keeps_myId.
Qed.

Lemma constructor_users id color w Paho now :
  users (constructor id color w Paho now).1 = ∅.
Proof.
  unfold constructor.
  match goal with |- users (?m ?s).1 = _ =>
    assert (Hk : ∀ k, users (m s).1 !! k = None) end.
  { intros k. unfold mbind at 1, JS_bind at 1. unfold initCanvas, resize, modify at 1.
    unfold mbind at 1, JS_bind at 1.
    match goal with |- context [initMQTT Paho ?s] =>
      assert (Hi : users (initMQTT Paho s).1 = ∅ ∧ (initMQTT Paho s).2 = Normal tt)
        by (destruct Paho; done);
      destruct (initMQTT Paho s) as [st1 c1] end.
    simpl in Hi. destruct Hi as [Hi ->].
    destruct (animate_spec now st1) as (Hk & _ & _).
    destruct (Hk k) as [-> | [-> _]]; [|done]. by rewrite Hi. }
  apply map_eq. intros k. by rewrite Hk, lookup_empty.
Qed.

Lemma constructor_myId id color w Paho now : myId (constructor id color w Paho now).1 = id.
Proof.
  unfold constructor.
  match goal with |- myId (?m ?s).1 = _ =>
    assert (Hk : keeps myId m) by (keeps_all; reflexivity); apply Hk end.
Qed.

Lemma strict_eq_string_refl s : strict_eq_string (VStr s : value num) s = true.
Proof. apply String.eqb_refl. Qed.

(** C1 (as amended). A message whose parsed id is the local id is dropped
    whole: the table, the canvas and the console stay as they were.  From
    construction on, the local id is never a key of the table as long as no
    message carries an id, other than the local id itself, whose conversion
    to a property key is the local id. *)
Theorem self_filtering :
  (∀ st message now data,
     JSON_parse (payloadString message) = Some data →
     get data "id" = Normal (VStr (myId st)) →
     onMessageArrived message now st = (st, Normal tt))
  ∧ (∀ id color w Paho now0 evs,
       (∀ message now, message_arrived message now ∈ evs → foreign id message) →
       users (run evs (constructor id color w Paho now0).1) !! id = None).
Proof.
  split.
  - intros st message now data Hp Hid.
    unfold onMessageArrived, try_catch, mbind, JS_bind, eval, read.
    rewrite Hp, Hid. simpl. rewrite String.eqb_refl. reflexivity.
  - intros id color w Paho now0 evs.
    pose proof (constructor_users id color w Paho now0) as Hu.
    pose proof (constructor_myId id color w Paho now0) as Hid.
    generalize dependent (constructor id color w Paho now0).1. intros st Hu Hid.
    assert (Hnone : users st !! id = None) by (by rewrite Hu, lookup_empty).
    clear Hu. revert st Hid Hnone.
    induction evs as [|ev evs IH]; intros st Hid Hnone Hf; [done|].
    simpl. apply IH.
    + rewrite dispatch_keeps_myId. done.
    + destruct (dispatch_users ev st id)
        as [-> | [-> | (message & now & data & u' & -> & Hfiled & _ & _)]]; [done..|].
      destruct Hfiled as (idv & Hp & Hidv & Hne & Hkey). rewrite Hid in Hne.
      assert (idv = VStr id) as ->.
      { eapply (Hf message now); [apply elem_of_cons; by left | done..]. }
      by rewrite strict_eq_string_refl in Hne.
    + intros message now Hin. apply (Hf message now), elem_of_cons. by right.
Qed.


(** C3 (as amended). No payload makes the handler throw.  A payload that
    is not JSON is logged and changes nothing else; more generally, whenever
    the handler logs, the table is as it was. *)
Theorem malformed_payload st message now :
  let r := onMessageArrived message now st in
  r.2 = Normal tt
  ∧ (JSON_parse (payloadString message) = None →
     r.1 = set_console (λ l, l ++ [console_error "MQTT Parse Error"]) st)
  ∧ (console r.1 ≠ console st → users r.1 = users st).
Proof.
  split_and!.
  - apply onMessageArrived_normal.
  - intros Hp. unfold onMessageArrived, try_catch, mbind, JS_bind, eval.
    rewrite Hp. reflexivity.
  - intros Hc.
    destruct (onMessageArrived_spec message now st) as [[Hu _] | (k & d & u' & _ & _ & _ & Hl)];
      [done|]. by destruct Hc.
Qed.

(** *** The handler, event type by event type *)

Lemma drawStroke_points st a b c d color s :
  ToString color = Normal s →
  drawStroke (point (VNum a) (VNum b)) (point (VNum c) (VNum d)) color st
  = (set_ctx (λ l, l ++ segment (num_mul a (canvas_width st)) (num_mul b (canvas_height st))
                            (num_mul c (canvas_width st)) (num_mul d (canvas_height st))
                            color) st,
     Normal tt).
Proof.
  intros Hs.
  unfold drawStroke, assign_style, mbind, JS_bind, eval, read, call, modify.
  simpl. rewrite Hs. simpl. unfold set_ctx, segment. simpl.
  repeat rewrite <- app_assoc. reflexivity.
Qed.

Lemma onMessageArrived_move st message now data key x y color :
  filed_under (myId st) message key data →
  get data "type" = Normal (VStr "move") →
  get data "x" = Normal x → get data "y" = Normal y → get data "color" = Normal color →
  onMessageArrived message now st
  = (set_users <[key := User x y color (Some now)]> st, Normal tt).
Proof.
  intros (id & Hp & Hid & Hme & Hkey) Hty Hx Hy Hc.
  unfold onMessageArrived, handleRemoteData,
    try_catch, mbind, JS_bind, eval, read, modify.
  rewrite Hp, Hid. simpl. rewrite Hme, Hkey, Hty. simpl.
  rewrite Hx, Hy, Hc. reflexivity.
Qed.

Lemma onMessageArrived_draw st message now data key x y color :
  filed_under (myId st) message key data →
  get data "type" = Normal (VStr "draw") →
  get data "x" = Normal x → get data "y" = Normal y → get data "color" = Normal color →
  let user := default empty_user (users st !! key) in
  onMessageArrived message now st
  = if is_defined (user_x user) then
      match drawStroke (point (user_x user) (user_y user)) (point x y) color st with
      | (st', Normal _) => (set_users <[key := User x y color (Some now)]> st', Normal tt)
      | (st', Throw _) =>
          (set_console (λ l, l ++ [console_error "MQTT Parse Error"]) st', Normal tt)
      end
    else (set_users <[key := User x y color (Some now)]> st, Normal tt).
Proof.
  intros (id & Hp & Hid & Hme & Hkey) Hty Hx Hy Hc user.
  unfold onMessageArrived, handleRemoteData,
    try_catch, mbind, JS_bind, eval, read, modify, log.
  rewrite Hp, Hid. simpl. rewrite Hme, Hkey, Hty. simpl.
  rewrite Hx, Hy, Hc. fold user. destruct (is_defined (user_x user)); [|reflexivity].
  unfold point.
  destruct (drawStroke _ _ color st) as [st' [[]|e]]; reflexivity.
Qed.

Lemma onMessageArrived_other st message now data key type :
  filed_under (myId st) message key data →
  get data "type" = Normal type →
  strict_eq_string type "move" = false → strict_eq_string type "draw" = false →
  onMessageArrived message now st
  = (set_users <[key := default empty_user (users st !! key)]> st, Normal tt).
Proof.
  intros (id & Hp & Hid & Hme & Hkey) Hty Hm Hd.
  unfold onMessageArrived, handleRemoteData,
    try_catch, mbind, JS_bind, eval, read, modify.
  rewrite Hp, Hid. simpl. rewrite Hme, Hkey, Hty. simpl.
  rewrite Hm, Hd. reflexivity.
Qed.


Lemma run_frames_cons now frames st :
  run (animation_frame <$> now :: frames) st
  = run (animation_frame <$> frames) (animate now st).1.
Proof. reflexivity. Qed.




(** *** Strokes *)

Lemma run_frames_keep frames st :
  myId (run (animation_frame <$> frames) st) = myId st
  ∧ canvas_width (run (animation_frame <$> frames) st) = canvas_width st
  ∧ canvas_height (run (animation_frame <$> frames) st) = canvas_height st
  ∧ strokes (ctx (run (animation_frame <$> frames) st)) = strokes (ctx st).
Proof.
  revert st. induction frames as [|now frames IH]; intros st; [done|].
  rewrite run_frames_cons. destruct (IH (animate now st).1) as (-> & -> & -> & ->).
  split_and!.
  - assert (Hk : keeps myId (animate now)) by (keeps_all; reflexivity). apply Hk.
  - assert (Hk : keeps canvas_width (animate now)) by (keeps_all; reflexivity). apply Hk.
  - assert (Hk : keeps canvas_height (animate now)) by (keeps_all; reflexivity). apply Hk.
  - apply animate_keeps_strokes.
Qed.

Lemma run_frames_keep_fresh frames st key u t :
  users st !! key = Some u → user_lastSeen u = Some t →
  Forall (λ now, now - t ≤ 10000) frames →
  users (run (animation_frame <$> frames) st) !! key = Some u.
Proof.
  intros Hu Ht Hf. revert st Hu. induction Hf as [|now frames Hnow Hf IH]; intros st Hu; [done|].
  rewrite run_frames_cons. apply IH. apply animate_keeps_fresh; [done|].
  unfold stale. rewrite Ht. apply Z.ltb_ge. lia.
Qed.

(** C4. A remote participant ["u1"] sends a move at [(x1, y1)] and then,
    with every frame in between at most 10000 ms after the move, a draw at
    [(x2, y2)].  After both, the table holds ["u1"] at [(x2, y2)] with
    [lastSeen] the time of the draw; the draw handler itself appended one
    segment from [(x1, y1)] to [(x2, y2)], scaled to the canvas, in the
    event's colour; and over the whole scenario exactly one segment was
    stroked, the frames in between stroking none. *)
Theorem move_then_draw st m1 m2 t1 t2 frames x1 y1 x2 y2 color :
  myId st ≠ "u1" →
  JSON_parse (payloadString m1) = Some (wire_event "move" x1 y1 "u1" color) →
  JSON_parse (payloadString m2) = Some (wire_event "draw" x2 y2 "u1" color) →
  Forall (λ now, now - t1 ≤ 10000) frames →
  let st1 := (onMessageArrived m1 t1 st).1 in
  let st2 := run (animation_frame <$> frames) st1 in
  let st3 := (onMessageArrived m2 t2 st2).1 in
  users st3 !! "u1" = Some (User (VNum x2) (VNum y2) (VStr color) (Some t2))
  ∧ ctx st3 = ctx st2 ++ segment (num_mul x1 (canvas_width st)) (num_mul y1 (canvas_height st))
                                 (num_mul x2 (canvas_width st)) (num_mul y2 (canvas_height st))
                                 (VStr color)
  ∧ strokes (ctx st3) = S (strokes (ctx st)).
Proof.
  intros Hme Hp1 Hp2 Hf st1 st2 st3.
  assert (Hfiled : ∀ (s : LiveCanvas num) m ty x y, myId s = myId st →
            JSON_parse (payloadString m) = Some (wire_event ty x y "u1" color) →
            filed_under (myId s) m "u1" (wire_event ty x y "u1" color)).
  { intros s m ty x y Hs Hp. exists (VStr "u1"). split_and!; [done..| |done].
    rewrite Hs. apply String.eqb_neq. congruence. }
  assert (Hst1 : st1 = set_users <["u1" := User (VNum x1) (VNum y1) (VStr color) (Some t1)]> st).
  { unfold st1.
    by rewrite (onMessageArrived_move st m1 t1 _ "u1" (VNum x1) (VNum y1) (VStr color)
                  (Hfiled st m1 _ _ _ eq_refl Hp1)). }
  destruct (run_frames_keep frames st1) as (Hid2 & Hw2 & Hh2 & Hs2).
  fold st2 in Hid2, Hw2, Hh2, Hs2.
  assert (Hu2 : users st2 !! "u1" = Some (User (VNum x1) (VNum y1) (VStr color) (Some t1))).
  { apply (run_frames_keep_fresh frames st1 "u1" _ t1); [|done..].
    rewrite Hst1. apply lookup_insert_eq. }
  rewrite Hst1 in Hid2, Hw2, Hh2, Hs2. simpl in Hid2, Hw2, Hh2, Hs2.
  assert (Hst3 : st3 =
    set_users <["u1" := User (VNum x2) (VNum y2) (VStr color) (Some t2)]>
      (set_ctx (λ l, l ++ segment (num_mul x1 (canvas_width st)) (num_mul y1 (canvas_height st))
                              (num_mul x2 (canvas_width st)) (num_mul y2 (canvas_height st))
                              (VStr color)) st2)).
  { unfold st3.
    rewrite (onMessageArrived_draw st2 m2 t2 _ "u1" (VNum x2) (VNum y2) (VStr color)
               (Hfiled st2 m2 _ _ _ Hid2 Hp2)) by done.
    cbv zeta. rewrite Hu2. cbn [default from_option id user_x user_y is_defined].
    rewrite (drawStroke_points st2 x1 y1 x2 y2 (VStr color) color eq_refl).
    by rewrite Hw2, Hh2. }
  rewrite Hst3. simpl. split_and!.
  - apply lookup_insert_eq.
  - reflexivity.
  - rewrite strokes_app, Hs2. unfold strokes at 2. simpl. lia.
Qed.

(** *** Publishing *)

Lemma assoc_set_eq {A} k (a : A) l : assoc k (assoc_set k a l) = Some a.
Proof.
  induction l as [|[k' a'] l IH]; simpl.
  - by rewrite String.eqb_refl.
  - destruct (String.eqb k k') eqn:Hk; simpl; rewrite ?String.eqb_refl, ?Hk; done.
Qed.

Lemma assoc_set_ne {A} k k' (a : A) l : k ≠ k' → assoc k (assoc_set k' a l) = assoc k l.
Proof.
  intros Hne. induction l as [|[k'' a''] l IH]; simpl.
  - by apply String.eqb_neq in Hne as ->.
  - destruct (String.eqb k' k'') eqn:Hk; simpl.
    + apply String.eqb_eq in Hk as <-. by apply String.eqb_neq in Hne as ->.
    + by rewrite IH.
Qed.

Lemma publish_no_client data st : client st = None → publish data st = (st, Throw TypeError).
Proof. intros Hc. unfold publish, mbind, JS_bind, read, eval. by rewrite Hc. Qed.

(** C5. With a client: when it reports connected, [publish] sends, to the
    fixed topic, the serialized intent with [id] and [color] set to the
    local ones and every other property as given; when it reports
    disconnected, [publish] does nothing at all, and a pointer-down followed
    by a pointer-move still strokes the local segment and sends nothing. *)
Theorem publish_connected_or_not st c data :
  client st = Some c →
  let payload :=
    assoc_set "color" (VStr (myColor st)) (assoc_set "id" (VStr (myId st)) data) in
  (isConnected c = true →
     assoc "id" payload = Some (VStr (myId st))
     ∧ assoc "color" payload = Some (VStr (myColor st))
     ∧ (∀ k, k ≠ "id" → k ≠ "color" → assoc k payload = assoc k data)
     ∧ publish data st
       = (set_client
            (Some {| isConnected := true; subscriptions := subscriptions c;
                     sent := sent c ++ [{| payloadString := JSON_stringify (VObj payload);
                                           destinationName := topic |}] |}) st,
          Normal tt))
  ∧ (isConnected c = false →
     publish data st = (st, Normal tt)
     ∧ ∀ rect e1 e2,
         let px e := num_mul (num_div (num_sub (clientX e) (rect_left rect)) (canvas_width st))
                             (canvas_width st) in
         let py e := num_mul (num_div (num_sub (clientY e) (rect_top rect)) (canvas_height st))
                             (canvas_height st) in
         let st' := run [mousedown rect e1; mousemove rect e2] st in
         client st' = client st
         ∧ ctx st' = ctx st ++ segment (px e1) (py e1) (px e2) (py e2) (VStr (myColor st))).
Proof.
  intros Hc payload. split.
  - intros Hconn. split_and!.
    + unfold payload. rewrite assoc_set_ne by done. apply assoc_set_eq.
    + apply assoc_set_eq.
    + intros k Hid Hcol. unfold payload. by rewrite !assoc_set_ne.
    + unfold publish, mbind, JS_bind, read, eval, modify.
      rewrite Hc. simpl. rewrite Hconn. reflexivity.
  - intros Hconn. split.
    + unfold publish, mbind, JS_bind, read, eval.
      rewrite Hc. simpl. by rewrite Hconn.
    + intros rect e1 e2 px py st'. unfold st', run. simpl.
      unfold onDown, onMove, getPos, drawStroke, assign_style,
        publish, mbind, JS_bind, read, eval, modify, call.
      simpl. rewrite Hc. simpl. rewrite Hconn. simpl. split; [done|].
      unfold segment, px, py. repeat rewrite <- app_assoc. reflexivity.
Qed.

(** *** Without the client library *)

Lemma onMove_no_client rect e st :
  client st = None →
  client (onMove rect e st).1 = None ∧ ∃ ex, (onMove rect e st).2 = Throw ex.
Proof.
  intros Hc. unfold onMove, getPos, mbind, JS_bind, read, eval, modify; simpl.
  destruct (isDrawing st); [|rewrite publish_no_client; eauto].
  match goal with |- context [drawStroke ?a ?b ?c ?s] =>
    pose proof (drawStroke_keeps_client a b c s) as Hk;
    destruct (drawStroke a b c s) as [st1 [[]|ex]] end; simpl in *.
  - rewrite publish_no_client; simpl; [|congruence]. split; [congruence | eauto].
  - split; [congruence | eauto].
Qed.

Lemma dispatch_no_client ev st : client st = None → client (dispatch ev st).1 = None.
Proof.
  intros Hc.
  destruct ev; simpl;
    try (by apply onMove_no_client);
    try (unfold with_client, mbind, JS_bind, read; by rewrite Hc);
    rewrite <- Hc;
    match goal with |- client (?m ?s).1 = _ =>
      assert (Hk : keeps client m) by (keeps_all; reflexivity); apply Hk end.
Qed.

Lemma run_no_client evs st : client st = None → client (run evs st) = None.
Proof.
  revert st. induction evs as [|ev evs IH]; intros st Hc; [done|].
  simpl. apply IH. by apply dispatch_no_client.
Qed.

Lemma onMove_idle_no_client rect e st :
  client st = None → isDrawing st = false → onMove rect e st = (st, Throw TypeError).
Proof.
  intros Hc Hd. unfold onMove, getPos, mbind, JS_bind, read, eval; simpl.
  rewrite Hd. by apply publish_no_client.
Qed.

(** C6 (the code against the claim). Constructed without the Paho library,
    the instance logs the fact once and has no client.  From then on, after
    any events whatsoever, every pointer move ends by throwing: [publish]
    reads [isConnected] of a client that does not exist.  A drawing move
    still strokes its segment first, and then throws a [TypeError]. *)
Theorem pointer_move_without_paho id color w now0 :
  let st0 := (constructor id color w false now0).1 in
  console st0 = [console_error "Paho MQTT client not loaded"]
  ∧ client st0 = None
  ∧ (∀ evs rect e, ∃ ex, (onMove rect e (run evs st0)).2 = Throw ex)
  ∧ (∀ rect e, onMove rect e st0 = (st0, Throw TypeError))
  ∧ (∀ rect e1 e2,
       let px e := num_mul (num_div (num_sub (clientX e) (rect_left rect)) (canvas_width st0))
                           (canvas_width st0) in
       let py e := num_mul (num_div (num_sub (clientY e) (rect_top rect)) (canvas_height st0))
                           (canvas_height st0) in
       let st1 := (dispatch (mousedown rect e1) st0).1 in
       (onMove rect e2 st1).2 = Throw TypeError
       ∧ ctx (onMove rect e2 st1).1
         = ctx st0 ++ segment (px e1) (py e1) (px e2) (py e2) (VStr (myColor st0))).
Proof.
  intros st0.
  assert (Hcl : client st0 = None).
  { unfold st0, constructor.
    match goal with |- client (?m ?s).1 = _ =>
      assert (Hk : keeps client m) by (keeps_all; reflexivity); apply Hk end. }
  assert (Hdr : isDrawing st0 = false).
  { unfold st0, constructor.
    match goal with |- isDrawing (?m ?s).1 = _ =>
      assert (Hk : keeps isDrawing m) by (keeps_all; reflexivity); apply Hk end. }
  split_and!; [|done| | |].
  - unfold st0, constructor, initCanvas, resize, initMQTT, mbind, JS_bind, modify, log.
    simpl.
    match goal with |- console (?m ?s).1 = _ =>
      assert (Hk : keeps console m) by (keeps_all; reflexivity); apply Hk end.
  - intros evs rect e. apply onMove_no_client, run_no_client, Hcl.
  - intros rect e. by apply onMove_idle_no_client.
  - intros rect e1 e2 px py st1. generalize dependent st0. intros st0 Hcl Hdr px py st1.
    unfold st1. simpl.
    unfold onDown, onMove, getPos, drawStroke, assign_style,
      publish, mbind, JS_bind, read, eval, modify, call.
    simpl. rewrite Hcl. simpl. split; [done|].
    unfold segment, px, py. repeat rewrite <- app_assoc. reflexivity.
Qed.


End Properties.

(** ** The geometry in exact and in binary64 arithmetic *)

Lemma xnum_scale_back (p w : Qc) : w ≠ 0%Qc → num_mul (num_div (Some p) (Some w)) (Some w) = Some p.
Proof.
  intros Hw. simpl. unfold xdiv. destruct (decide (w = 0%Qc)); [done|].
  simpl. f_equal. field. done.
Qed.

Lemma xnum_normalize_back (a w l : Qc) :
  w ≠ 0%Qc →
  num_div (num_sub (num_add (num_mul (Some a) (Some w)) (Some l)) (Some l)) (Some w) = Some a.
Proof.
  intros Hw. simpl. unfold xdiv. destruct (decide (w = 0%Qc)); [done|].
  f_equal. field. done.
Qed.


(** C7 (as amended). [drawStroke] scales a normalized point linearly, pixel =
    normalized × canvas width (or height), in whatever arithmetic.  In exact
    arithmetic and on a canvas of non-zero width and height this scaling is
    the inverse of the conversion of [getPos]: scaling the position
    [getPos] returns gives back the pointer's offset from the canvas corner,
    and [getPos] at the pointer position a normalized point scales to gives
    back that point. *)
Theorem stroke_scaling_inverts_getPos :
  (∀ num (N : JSNumber num) (R : Runtime num) (st : LiveCanvas num) a b c d color s,
     ToString color = Normal s →
     drawStroke (point (VNum a) (VNum b)) (point (VNum c) (VNum d)) color st
     = (set_ctx (λ l, l ++ segment (num_mul a (canvas_width st)) (num_mul b (canvas_height st))
                               (num_mul c (canvas_width st)) (num_mul d (canvas_height st))
                               color) st,
        Normal tt))
  ∧ (∀ (st : LiveCanvas xnum) (w h : Qc),
       canvas_width st = Some w → canvas_height st = Some h → w ≠ 0%Qc → h ≠ 0%Qc →
       (∀ rect e (cx cy l t : Qc),
          clientX e = Some cx → clientY e = Some cy →
          rect_left rect = Some l → rect_top rect = Some t →
          ∃ X Y,
            getPos rect e st = (st, Normal (point (VNum X) (VNum Y)))
            ∧ num_mul X (canvas_width st) = Some (cx - l)%Qc
            ∧ num_mul Y (canvas_height st) = Some (cy - t)%Qc)
       ∧ (∀ rect e (X Y l t : Qc),
            rect_left rect = Some l → rect_top rect = Some t →
            clientX e = num_add (num_mul (Some X) (canvas_width st)) (Some l) →
            clientY e = num_add (num_mul (Some Y) (canvas_height st)) (Some t) →
            getPos rect e st = (st, Normal (point (VNum (Some X)) (VNum (Some Y)))))).
Proof.
  split.
  - intros num N R st a b c d color s Hs. by apply drawStroke_points with s.
  - intros st w h Hw Hh Hw0 Hh0. split.
    + intros rect e cx cy l t Hcx Hcy Hl Ht.
      exists (num_div (num_sub (Some cx) (Some l)) (Some w)),
             (num_div (num_sub (Some cy) (Some t)) (Some h)).
      split; [|split].
      * unfold getPos, mbind, JS_bind, read, mret, JS_ret. cbv beta iota.
        by rewrite Hcx, Hcy, Hl, Ht, Hw, Hh.
      * rewrite Hw. apply (xnum_scale_back (cx - l) w Hw0).
      * rewrite Hh. apply (xnum_scale_back (cy - t) h Hh0).
    + intros rect e X Y l t Hl Ht Hcx Hcy.
      unfold getPos, mbind, JS_bind, read, mret, JS_ret. cbv beta iota.
      rewrite Hcx, Hcy, Hl, Ht, Hw, Hh.
      by rewrite (xnum_normalize_back X w l Hw0), (xnum_normalize_back Y h t Hh0).
Qed.


(** ** The claims on the sample runs *)

(** C1, the claim as stated fails: user_42 receives a move whose id is the
    array [["user_42"]].  The id is not the local id, so the message is
    handled, and its key is the local id. *)
Lemma array_id_takes_local_key :
  let st := run [connect_success; message_arrived (message_of text_array_id) 1000]
              sample_canvas in
  myId sample_canvas = "user_42"
  ∧ JSON_parse text_array_id
    = Some (VObj [("type", VStr "move"); ("x", VNum 0.5%float); ("y", VNum 0.5%float);
                  ("id", VArr [VStr "user_42"]); ("color", VStr "red")])
  ∧ users st !! "user_42"
    = Some (User (VNum 0.5%float) (VNum 0.5%float) (VStr "red") (Some 1000)).
Proof. vm_compute. auto. Qed.

(** Every message of the sample session is foreign to user_42, or is its own. *)
Lemma sample_texts_foreign message now :
  message_arrived message now ∈ sample_session → foreign "user_42" message.
Proof.
  intros Hin. unfold sample_session in Hin.
  repeat (apply elem_of_cons in Hin as [Hin | Hin]; [try discriminate Hin|]);
    [..| by apply elem_of_nil in Hin].
  all: injection Hin as -> _; intros data id Hp Hid Hkey.
  all: vm_compute in Hp; try discriminate Hp; injection Hp as <-.
  all: vm_compute in Hid; injection Hid as <-.
  all: vm_compute in Hkey; try discriminate Hkey; reflexivity.
Defined.

(** C1 on the sample session: the local user's own move is dropped, and
    after the session the local id is no key of the table. *)
Lemma self_filtering_witness :
  onMessageArrived (message_of text_self) 3000 sample_canvas = (sample_canvas, Normal tt)
  ∧ users (run sample_session
             (constructor "user_42" "hsl(200, 100%, 70%)" 800%float true 0).1) !! "user_42"
    = None.
Proof.
  destruct (self_filtering (num := float)) as [Hdrop Hnever]. split.
  - apply (Hdrop sample_canvas (message_of text_self) 3000
             (wire_event "move" 0.5%float 0.5%float "user_42" "red")); reflexivity.
  - apply Hnever. apply sample_texts_foreign.
Defined.



(** C3, the claim as stated fails: the text [{}] is JSON but no event; the
    handler files it under the key ["undefined"] and the table, empty before,
    holds a record after. *)
Lemma empty_object_changes_table :
  JSON_parse text_empty_object = Some (VObj [])
  ∧ users sample_canvas !! "undefined" = None
  ∧ users (onMessageArrived (message_of text_empty_object) 1000 sample_canvas).1 !! "undefined"
    = Some empty_user.
Proof. vm_compute. auto. Qed.

(** C3 on a text that is not JSON: nothing thrown, the error logged, the
    table as it was. *)
Lemma malformed_payload_witness :
  (onMessageArrived (message_of text_garbage) 1000 sample_canvas).2 = Normal tt
  ∧ (onMessageArrived (message_of text_garbage) 1000 sample_canvas).1
    = set_console (λ l, l ++ [console_error "MQTT Parse Error"]) sample_canvas
  ∧ users (onMessageArrived (message_of text_garbage) 1000 sample_canvas).1
    = users sample_canvas.
Proof.
  destruct (malformed_payload sample_canvas (message_of text_garbage) 1000)
    as (Hnormal & Hlogged & Hkept).
  split_and!.
  - exact Hnormal.
  - apply Hlogged. reflexivity.
  - apply Hkept. rewrite Hlogged by reflexivity. vm_compute. discriminate.
Defined.

(** C4 on the canvas 800 by 300: a move at (0.5, 0.5) at time 1000, frames
    at 2000 and 3000, a draw at (0.6, 0.5) at time 4000. *)
Lemma move_then_draw_witness :
  let st1 := (onMessageArrived (message_of text_move) 1000 connected_canvas).1 in
  let st2 := run (animation_frame <$> [2000; 3000]) st1 in
  let st3 := (onMessageArrived (message_of text_draw) 4000 st2).1 in
  users st3 !! "u1" = Some (User (VNum 0.6%float) (VNum 0.5%float) (VStr "red") (Some 4000))
  ∧ ctx st3 = ctx st2 ++ segment 400%float 150%float 480%float 150%float (VStr "red")
  ∧ strokes (ctx st3) = S (strokes (ctx connected_canvas)).
Proof.
  intros st1 st2 st3.
  change (segment 400%float 150%float 480%float 150%float (VStr "red"))
    with (segment (num_mul 0.5%float (canvas_width connected_canvas))
                  (num_mul 0.5%float (canvas_height connected_canvas))
                  (num_mul 0.6%float (canvas_width connected_canvas))
                  (num_mul 0.5%float (canvas_height connected_canvas)) (VStr "red")).
  apply (move_then_draw connected_canvas (message_of text_move) (message_of text_draw)
           1000 4000 [2000; 3000] 0.5%float 0.5%float 0.6%float 0.5%float "red").
  - vm_compute. discriminate.
  - reflexivity.
  - reflexivity.
  - repeat constructor; lia.
Defined.

(** C5: a move intent published on the connected instance and on the
    instance still disconnected, and a stroke drawn while disconnected. *)
Lemma publish_connected_or_not_witness :
  publish [("type", VStr "move"); ("x", VNum 0.5%float); ("y", VNum 0.5%float)] connected_canvas
  = (set_client
       (Some {| isConnected := true; subscriptions := [topic];
                sent := [{| payloadString :=
                              JSON_stringify
                                (VObj [("type", VStr "move"); ("x", VNum 0.5%float);
                                       ("y", VNum 0.5%float); ("id", VStr "user_42");
                                       ("color", VStr "hsl(200, 100%, 70%)")]);
                            destinationName := topic |}] |}) connected_canvas,
     Normal tt)
  ∧ publish [("type", VStr "move"); ("x", VNum 0.5%float); ("y", VNum 0.5%float)] sample_canvas
    = (sample_canvas, Normal tt)
  ∧ (let st' := run [mousedown sample_rect {| clientX := 160%float; clientY := 60%float |};
                     mousemove sample_rect {| clientX := 240%float; clientY := 90%float |}]
                  sample_canvas in
     client st' = client sample_canvas
     ∧ strokes (ctx st') = S (strokes (ctx sample_canvas))).
Proof.
  split_and!.
  - apply (publish_connected_or_not connected_canvas
             {| isConnected := true; subscriptions := [topic]; sent := [] |}); reflexivity.
  - apply (publish_connected_or_not sample_canvas
             {| isConnected := false; subscriptions := []; sent := [] |}); reflexivity.
  - destruct (publish_connected_or_not sample_canvas
                {| isConnected := false; subscriptions := []; sent := [] |}
                [] eq_refl) as [_ Hoff].
    destruct (Hoff eq_refl) as [_ Hgesture].
    destruct (Hgesture sample_rect {| clientX := 160%float; clientY := 60%float |}
                {| clientX := 240%float; clientY := 90%float |}) as [Hclient Hctx].
    split; [exact Hclient|]. cbv zeta. rewrite Hctx, strokes_app. vm_compute. reflexivity.
Defined.

(** C6 on the instance constructed without Paho: the first pointer move
    throws, and so does a drawing move, after its segment is stroked. *)
Example pointer_move_without_paho_sample :
  console sample_canvas_alone = [console_error "Paho MQTT client not loaded"]
  ∧ onMove sample_rect {| clientX := 160%float; clientY := 60%float |} sample_canvas_alone
    = (sample_canvas_alone, Throw TypeError)
  ∧ (let st1 := run [mousedown sample_rect {| clientX := 160%float; clientY := 60%float |}]
                  sample_canvas_alone in
     let r := onMove sample_rect {| clientX := 240%float; clientY := 90%float |} st1 in
     r.2 = Throw TypeError ∧ strokes (ctx r.1) = S (strokes (ctx sample_canvas_alone))).
Proof. vm_compute. auto. Qed.

(** C7, the claim as stated fails in the arithmetic the program runs on.  On
    the canvas 800 by 300 the pointer at offset (7, 21) is normalized by
    [getPos] to a point of the unit square, and scaling that point back, as
    [drawStroke] does, gives neither 7 nor 21.  Conversely the normalized
    ordinate 0.029 is scaled to a pixel that [getPos] does not normalize back
    to 0.029.  And on a canvas of width 0 the normalized abscissa 0.5 is
    scaled to the pixel 0, which [getPos] divides by zero. *)
Lemma binary64_round_trip_is_inexact :
  let X := num_div 7%float 800%float in
  let Y := num_div 21%float 300%float in
  canvas_width sample_canvas = 800%float
  ∧ canvas_height sample_canvas = 300%float
  ∧ getPos sample_rect {| clientX := 7%float; clientY := 21%float |} sample_canvas
    = (sample_canvas, Normal (point (VNum X) (VNum Y)))
  ∧ normalized X = true ∧ normalized Y = true
  ∧ num_mul X (canvas_width sample_canvas) ≠ 7%float
  ∧ num_mul Y (canvas_height sample_canvas) ≠ 21%float
  ∧ normalized 0.029%float = true
  ∧ num_div (num_mul 0.029%float (canvas_height sample_canvas)) (canvas_height sample_canvas)
    ≠ 0.029%float
  ∧ canvas_width collapsed_canvas = 0%float
  ∧ num_div (num_mul 0.5%float (canvas_width collapsed_canvas)) (canvas_width collapsed_canvas)
    ≠ 0.5%float.
Proof. vm_compute. split_and!; (reflexivity || discriminate). Qed.

(** C7: a segment scaled on the canvas 800 by 300, and in exact arithmetic
    the pointer at (17, 41) on a canvas whose corner is at (10, 20). *)
Lemma stroke_scaling_inverts_getPos_witness :
  drawStroke (point (VNum 0.5%float) (VNum 0.5%float)) (point (VNum 0.75%float) (VNum 0.5%float))
    (VStr "red") sample_canvas
  = (set_ctx (λ l, l ++ segment 400%float 150%float 600%float 150%float (VStr "red"))
       sample_canvas, Normal tt)
  ∧ (∃ X Y,
       getPos exact_rect {| clientX := Some (Qc_of_Z 17); clientY := Some (Qc_of_Z 41) |} exact_canvas
       = (exact_canvas, Normal (point (VNum X) (VNum Y)))
       ∧ num_mul X (canvas_width exact_canvas) = Some (Qc_of_Z 7)
       ∧ num_mul Y (canvas_height exact_canvas) = Some (Qc_of_Z 21)).
Proof.
  destruct stroke_scaling_inverts_getPos as [Hlinear Hinverse]. split.
  - change (segment 400%float 150%float 600%float 150%float (VStr "red"))
      with (segment (num_mul 0.5%float (canvas_width sample_canvas))
                    (num_mul 0.5%float (canvas_height sample_canvas))
                    (num_mul 0.75%float (canvas_width sample_canvas))
                    (num_mul 0.5%float (canvas_height sample_canvas)) (VStr "red")).
    apply (Hlinear float _ _ sample_canvas _ _ _ _ (VStr "red") "red"). reflexivity.
  - destruct (Hinverse exact_canvas (Qc_of_Z 800) (Qc_of_Z 300) eq_refl eq_refl) as [Hback _];
      [discriminate.. |].
    destruct (Hback exact_rect {| clientX := Some (Qc_of_Z 17); clientY := Some (Qc_of_Z 41) |}
                (Qc_of_Z 17) (Qc_of_Z 41) (Qc_of_Z 10) (Qc_of_Z 20)
                eq_refl eq_refl eq_refl eq_refl) as (X & Y & Hpos & HX & HY).
    exists X, Y. split_and!; [exact Hpos | |].
    + rewrite HX. f_equal. apply Qc_is_canon. reflexivity.
    + rewrite HY. f_equal. apply Qc_is_canon. reflexivity.
Defined.





(** * Further properties *)

Section Further.
Context {num : Type} {N : JSNumber num} {R : Runtime num}.
Implicit Types (st : LiveCanvas num) (u : user num) (v : value num).

(** *** The handlers as equations *)

Lemma getPos_position rect e st : getPos rect e st = (st, Normal (position rect e st)).
Proof. reflexivity. Qed.

Lemma publish_with_client data st c :
  client st = Some c →
  publish data st
  = (if isConnected c
     then set_client (Some {| isConnected := isConnected c; subscriptions := subscriptions c;
                              sent := sent c ++ [outgoing st data] |}) st
     else st,
     Normal tt).
Proof.
  intros Hc. unfold publish, mbind, JS_bind, read, eval, modify. rewrite Hc. simpl.
  destruct (isConnected c); reflexivity.
Qed.

Lemma onMove_idle rect e st :
  isDrawing st = false → onMove rect e st = publish (intent "move" rect e st) st.
Proof.
  intros Hd. unfold onMove, getPos, mbind, JS_bind, read, eval. simpl. by rewrite Hd.
Qed.

Lemma onMove_drawing rect e st a b :
  isDrawing st = true → lastPos st = point (VNum a) (VNum b) →
  onMove rect e st
  = publish (intent "draw" rect e st)
      (set_lastPos (position rect e st)
         (set_ctx (λ l, l ++ segment (num_mul a (canvas_width st)) (num_mul b (canvas_height st))
                                 (pixel rect e st).1 (pixel rect e st).2 (VStr (myColor st)))
            st)).
Proof.
  intros Hd Hl.
  unfold onMove, getPos, drawStroke, assign_style, mbind, JS_bind, read, eval, modify, call.
  simpl. rewrite Hd, Hl. simpl. unfold set_ctx, segment. simpl.
  repeat rewrite <- app_assoc. reflexivity.
Qed.

Lemma onDown_state rect e st :
  onDown rect e st = (set_lastPos (position rect e st) (set_isDrawing true st), Normal tt).
Proof. reflexivity. Qed.

(** *** Construction *)

Lemma Object_entries_empty : Object_entries (∅ : gmap string (user num)) = [].
Proof.
  apply Permutation_nil_r. rewrite (Object_entries_spec ∅). by rewrite map_to_list_empty.
Qed.

Lemma constructor_state id color w Paho now :
  constructor id color w Paho now
  = ({| myId := id; myColor := color; users := ∅; isDrawing := false;
        lastPos := VUndefined;
        client := if Paho
                  then Some {| isConnected := false; subscriptions := []; sent := [] |}
                  else None;
        canvas_width := w; canvas_height := of_Z 300;
        ctx := [set_fillStyle (VStr "rgba(0, 0, 0, 0.05)");
                fillRect (of_Z 0) (of_Z 0) w (of_Z 300)];
        console := if Paho then [] else [console_error "Paho MQTT client not loaded"] |},
     Normal tt).
Proof.
  unfold constructor, initCanvas, resize, initMQTT, animate, assign_style,
    mbind, JS_bind, read, eval, modify, call, log.
  destruct Paho; simpl; rewrite Object_entries_empty; reflexivity.
Qed.


(** *** The frame loop, further *)

Lemma animate_users_subseteq now st : users (animate now st).1 ⊆ users st.
Proof.
  apply map_subseteq_spec. intros id u Hu.
  destruct (animate_spec now st) as (Hk & _ & _).
  destruct (Hk id) as [<- | [Hnone _]]; congruence.
Qed.

(** X2. A frame, whether it runs to its end or throws, adds no record to
    the table and alters none, strokes no segment, and leaves the identity,
    the stroke in progress, the client, the canvas size and the console as
    they were. *)
Theorem frame_only_evicts_and_paints now st :
  let st' := (animate now st).1 in
  users st' ⊆ users st
  ∧ strokes (ctx st') = strokes (ctx st)
  ∧ myId st' = myId st ∧ myColor st' = myColor st
  ∧ isDrawing st' = isDrawing st ∧ lastPos st' = lastPos st
  ∧ client st' = client st
  ∧ canvas_width st' = canvas_width st ∧ canvas_height st' = canvas_height st
  ∧ console st' = console st.
Proof.
  split_and!.
  - apply animate_users_subseteq.
  - apply animate_keeps_strokes.
  - assert (Hk : keeps myId (animate now)) by (keeps_all; reflexivity). apply Hk.
  - assert (Hk : keeps myColor (animate now)) by (keeps_all; reflexivity). apply Hk.
  - assert (Hk : keeps isDrawing (animate now)) by (keeps_all; reflexivity). apply Hk.
  - assert (Hk : keeps lastPos (animate now)) by (keeps_all; reflexivity). apply Hk.
  - assert (Hk : keeps client (animate now)) by (keeps_all; reflexivity). apply Hk.
  - assert (Hk : keeps canvas_width (animate now)) by (keeps_all; reflexivity). apply Hk.
  - assert (Hk : keeps canvas_height (animate now)) by (keeps_all; reflexivity). apply Hk.
  - assert (Hk : keeps console (animate now)) by (keeps_all; reflexivity). apply Hk.
Qed.







(** *** Local input *)

Lemma publish_keeps_isDrawing data : keeps isDrawing (publish data).
Proof. keeps_all; reflexivity. Qed.

Lemma publish_keeps_lastPos data : keeps lastPos (publish data).
Proof. keeps_all; reflexivity. Qed.

Lemma onMove_anchored rect e st : anchored st → anchored (onMove rect e st).1.
Proof.
  intros Ha. destruct (isDrawing st) eqn:Hd.
  - destruct (Ha Hd) as (a & b & Hl).
    rewrite (onMove_drawing rect e st a b Hd Hl). intros _.
    rewrite publish_keeps_lastPos. simpl. unfold position. eauto.
  - rewrite (onMove_idle rect e st Hd). intros Hd'.
    rewrite publish_keeps_isDrawing in Hd'. congruence.
Qed.

Lemma keeps_anchored {A} (m : JS num A) st :
  keeps isDrawing m → keeps lastPos m → anchored st → anchored (m st).1.
Proof. intros Hk1 Hk2 Ha. unfold anchored. by rewrite Hk1, Hk2. Qed.

Lemma onDown_anchored rect e st : anchored (onDown rect e st).1.
Proof. intros _. rewrite onDown_state. simpl. unfold position. eauto. Qed.

Lemma onUp_anchored st : anchored (onUp st).1.
Proof. intros Hd. discriminate Hd. Qed.

Lemma dispatch_anchored ev st : anchored st → anchored (dispatch ev st).1.
Proof.
  intros Ha.
  destruct ev; cbv beta iota delta [dispatch];
    first [ by apply onMove_anchored | apply onDown_anchored | apply onUp_anchored
          | apply keeps_anchored; [keeps_all; reflexivity | keeps_all; reflexivity | exact Ha] ].
Qed.

Lemma onMove_with_client rect e st :
  is_Some (client st) → anchored st →
  is_Some (client (onMove rect e st).1) ∧ (onMove rect e st).2 = Normal tt.
Proof.
  intros [c Hc] Ha. destruct (isDrawing st) eqn:Hd.
  - destruct (Ha Hd) as (a & b & Hl). rewrite (onMove_drawing rect e st a b Hd Hl).
    rewrite (publish_with_client _ _ c) by done. destruct (isConnected c); simpl; rewrite ?Hc; eauto.
  - rewrite (onMove_idle rect e st Hd), (publish_with_client _ _ c) by done.
    destruct (isConnected c); simpl; rewrite ?Hc; eauto.
Qed.

Lemma dispatch_has_client ev st :
  is_Some (client st) → anchored st → is_Some (client (dispatch ev st).1).
Proof.
  intros Hc Ha.
  destruct ev; simpl;
    try (by apply onMove_with_client);
    try (destruct Hc as [c Hc]; unfold with_client, mbind, JS_bind, read, modify, log;
         rewrite Hc; simpl; by eauto);
    try (match goal with |- is_Some (client (?m ?s).1) =>
           assert (Hk : keeps client m) by (keeps_all; reflexivity); by rewrite Hk end).
Qed.

Lemma run_with_client evs st :
  is_Some (client st) → anchored st →
  is_Some (client (run evs st)) ∧ anchored (run evs st).
Proof.
  revert st. induction evs as [|ev evs IH]; intros st Hc Ha; [done|].
  simpl. apply IH; [by apply dispatch_has_client | by apply dispatch_anchored].
Qed.

(** X5. With the Paho library loaded, the frame loop is the only listener
    that can throw: after construction and any events, every resize, pointer,
    touch, connection and message event is served to its end. *)
Theorem only_a_frame_can_throw id color w now0 evs ev :
  (∀ now, ev ≠ animation_frame now) →
  (dispatch ev (run evs (constructor id color w true now0).1)).2 = Normal tt.
Proof.
  intros Hev. rewrite constructor_state. simpl.
  match goal with |- context [run evs ?s] =>
    destruct (run_with_client evs s) as [Hc Ha]; [by eexists | by intros ? | ];
    generalize dependent (run evs s) end.
  intros st Hc Ha.
  destruct ev; simpl; try reflexivity;
    try (by apply onMove_with_client);
    try (destruct Hc as [c Hc]; unfold with_client, mbind, JS_bind, read, modify, log;
         rewrite Hc; simpl; reflexivity).
  - by destruct (Hev now).
  - destruct Hc as [c Hc]. unfold with_client, mbind, JS_bind, read. rewrite Hc.
    apply onMessageArrived_normal.
Qed.

Lemma run_moves_cons rect e es st :
  run (mousemove rect <$> e :: es) st = run (mousemove rect <$> es) (onMove rect e st).1.
Proof. reflexivity. Qed.

Lemma drawing_moves rect es : ∀ st c a b,
  client st = Some c → isDrawing st = true → lastPos st = point (VNum a) (VNum b) →
  let st' := run (mousemove rect <$> es) st in
  ctx st' = ctx st ++ polyline (VStr (myColor st))
                        (num_mul a (canvas_width st), num_mul b (canvas_height st))
                        ((λ e, pixel rect e st) <$> es)
  ∧ outbox st' = outbox st ++ (if isConnected c
                               then (λ e, outgoing st (intent "draw" rect e st)) <$> es
                               else [])
  ∧ users st' = users st ∧ isDrawing st' = true ∧ online st' = online st.
Proof.
  induction es as [|e es IH]; intros st c a b Hc Hd Hl.
  { simpl. rewrite !app_nil_r. destruct (isConnected c); by rewrite ?app_nil_r. }
  rewrite run_moves_cons. cbv zeta.
  rewrite (onMove_drawing rect e st a b Hd Hl), (publish_with_client _ _ c) by done.
  destruct (isConnected c) eqn:Hconn; cbn [fst].
  - match goal with |- context [run _ ?s] =>
      destruct (IH s {| isConnected := true; subscriptions := subscriptions c;
                        sent := sent c ++ [outgoing st (intent "draw" rect e st)] |}
                  (num_div (num_sub (clientX e) (rect_left rect)) (canvas_width st))
                  (num_div (num_sub (clientY e) (rect_top rect)) (canvas_height st))
                  eq_refl Hd eq_refl) as (Hctx & Hout & Hu & Hdr & Hon)
    end.
    rewrite Hctx, Hout, Hu, Hdr, Hon. unfold outbox, online. simpl. rewrite Hc, Hconn. simpl.
    split_and!; try done; by rewrite <- app_assoc.
  - match goal with |- context [run _ ?s] =>
      destruct (IH s c
                  (num_div (num_sub (clientX e) (rect_left rect)) (canvas_width st))
                  (num_div (num_sub (clientY e) (rect_top rect)) (canvas_height st))
                  Hc Hd eq_refl) as (Hctx & Hout & Hu & Hdr & Hon)
    end.
    rewrite Hctx, Hout, Hu, Hdr, Hon, Hconn. unfold outbox, online. simpl.
    split_and!; try done; by rewrite <- app_assoc.
Qed.

(** X6. A gesture: on an instance with a client, a pointer-down at [e0]
    followed by moves through [es] strokes, in the local colour, one
    connected line from [e0] through every move, each segment starting where
    the one before ended.  When the client reports connected one draw intent
    per move is sent, in order and without throttling; when it does not, none
    is.  The peer table is untouched and the stroke is still in progress. *)
Theorem gesture_is_a_polyline rect e0 es st c :
  client st = Some c →
  let st' := run (mousedown rect e0 :: (mousemove rect <$> es)) st in
  ctx st' = ctx st ++ polyline (VStr (myColor st)) (pixel rect e0 st)
                        ((λ e, pixel rect e st) <$> es)
  ∧ outbox st' = outbox st ++ (if isConnected c
                               then (λ e, outgoing st (intent "draw" rect e st)) <$> es
                               else [])
  ∧ users st' = users st ∧ isDrawing st' = true.
Proof.
  intros Hc st'. unfold st'.
  change (run (mousedown rect e0 :: (mousemove rect <$> es)) st)
    with (run (mousemove rect <$> es) (onDown rect e0 st).1).
  rewrite onDown_state. cbn [fst].
  destruct (drawing_moves rect es (set_lastPos (position rect e0 st) (set_isDrawing true st)) c
              (num_div (num_sub (clientX e0) (rect_left rect)) (canvas_width st))
              (num_div (num_sub (clientY e0) (rect_top rect)) (canvas_height st))
              Hc eq_refl eq_refl) as (Hctx & Hout & Hu & Hdr & _).
  split_and!; [exact Hctx | exact Hout | exact Hu | exact Hdr].
Qed.

Lemma idle_moves rect es : ∀ st c,
  client st = Some c → isDrawing st = false →
  let st' := run (mousemove rect <$> es) st in
  ctx st' = ctx st
  ∧ outbox st' = outbox st ++ (if isConnected c
                               then (λ e, outgoing st (intent "move" rect e st)) <$> es
                               else [])
  ∧ users st' = users st ∧ isDrawing st' = false ∧ lastPos st' = lastPos st.
Proof.
  induction es as [|e es IH]; intros st c Hc Hd.
  { simpl. destruct (isConnected c); by rewrite ?app_nil_r. }
  rewrite run_moves_cons. cbv zeta.
  rewrite (onMove_idle rect e st Hd), (publish_with_client _ _ c) by done.
  destruct (isConnected c) eqn:Hconn; cbn [fst].
  - match goal with |- context [run _ ?s] =>
      destruct (IH s {| isConnected := true; subscriptions := subscriptions c;
                        sent := sent c ++ [outgoing st (intent "move" rect e st)] |}
                  eq_refl Hd) as (Hctx & Hout & Hu & Hdr & Hlp)
    end.
    rewrite Hctx, Hout, Hu, Hdr, Hlp. unfold outbox. simpl. rewrite Hc. simpl.
    split_and!; try done; by rewrite <- app_assoc.
  - destruct (IH st c Hc Hd) as (Hctx & Hout & Hu & Hdr & Hlp).
    rewrite Hctx, Hout, Hu, Hdr, Hlp, Hconn. by rewrite app_nil_r.
Qed.

(** X7. Outside a gesture: after a pointer-up, moves draw nothing and leave
    the anchor alone; when the client reports connected each is sent as a
    move intent, in order. *)
Theorem moves_after_release_draw_nothing rect es st c :
  client st = Some c →
  let st' := run (mouseup :: (mousemove rect <$> es)) st in
  ctx st' = ctx st
  ∧ outbox st' = outbox st ++ (if isConnected c
                               then (λ e, outgoing st (intent "move" rect e st)) <$> es
                               else [])
  ∧ users st' = users st ∧ isDrawing st' = false ∧ lastPos st' = lastPos st.
Proof.
  intros Hc st'. unfold st'.
  change (run (mouseup :: (mousemove rect <$> es)) st)
    with (run (mousemove rect <$> es) (set_isDrawing false st)).
  apply (idle_moves rect es (set_isDrawing false st) c Hc eq_refl).
Qed.

(** *** The transport *)

Lemma dispatch_keeps_myColor ev : keeps myColor (dispatch ev).
Proof. destruct ev; simpl; keeps_all; reflexivity. Qed.

Lemma run_keeps_myColor evs st : myColor (run evs st) = myColor st.
Proof.
  revert st. induction evs as [|ev evs IH]; intros st; [done|].
  simpl. by rewrite IH, dispatch_keeps_myColor.
Qed.

Lemma keeps_result {A B} (f : LiveCanvas num → B) (m : JS num A) st st' r :
  keeps f m → m st = (st', r) → f st' = f st.
Proof. intros Hk Hm. specialize (Hk st). by rewrite Hm in Hk. Qed.

Lemma keeps_client_outbox {A} (m : JS num A) st :
  keeps client m → outbox (m st).1 = outbox st ∧ online (m st).1 = online st.
Proof. intros Hk. unfold outbox, online. by rewrite Hk. Qed.

Lemma publish_sends data st :
  let r := publish data st in
  online r.1 = online st
  ∧ (if online st then outbox r.1 = outbox st ++ [outgoing st data]
     else outbox r.1 = outbox st).
Proof.
  destruct (client st) as [c|] eqn:Hc.
  - cbv zeta. rewrite (publish_with_client _ _ c Hc). unfold online, outbox. rewrite Hc.
    destruct (isConnected c) eqn:Hconn; simpl; rewrite ?Hc, ?Hconn; done.
  - cbv zeta. rewrite (publish_no_client _ _ Hc). unfold online, outbox. simpl. by rewrite Hc.
Qed.

Lemma onMove_sends rect e st :
  let r := onMove rect e st in
  online r.1 = online st
  ∧ (outbox r.1 = outbox st
     ∨ (online st = true
        ∧ ∃ type, outbox r.1 = outbox st ++ [outgoing st (intent type rect e st)])).
Proof.
  destruct (isDrawing st) eqn:Hd.
  - cbv zeta. unfold onMove, getPos, mbind, JS_bind, read, eval. simpl. rewrite Hd.
    destruct (drawStroke (lastPos st)
                (VObj [("x", VNum (num_div (num_sub (clientX e) (rect_left rect)) (canvas_width st)));
                       ("y", VNum (num_div (num_sub (clientY e) (rect_top rect)) (canvas_height st)))])
                (VStr (myColor st)) st) as [st1 [[]|ex]] eqn:Hs.
    + assert (Hc : client st1 = client st)
        by (apply (keeps_result _ _ _ _ _ (drawStroke_keeps_client _ _ _) Hs)).
      assert (Hi1 : myId st1 = myId st)
        by (refine (keeps_result _ _ _ _ _ _ Hs); keeps_all; reflexivity).
      assert (Hi2 : myColor st1 = myColor st)
        by (refine (keeps_result _ _ _ _ _ _ Hs); keeps_all; reflexivity).
      unfold modify. simpl.
      match goal with |- context [publish ?d ?s] =>
        destruct (publish_sends d s) as [Ho Hb] end.
      split.
      * rewrite Ho. unfold online. simpl. by rewrite Hc.
      * revert Hb. unfold online at 1. simpl. rewrite Hc.
        fold (online st). destruct (online st).
        -- intros ->. right. split; [done|]. exists "draw".
           unfold outbox, outgoing, intent. simpl. by rewrite Hc, Hi1, Hi2.
        -- intros ->. left. unfold outbox. simpl. by rewrite Hc.
    + simpl.
      assert (Hc : client st1 = client st)
        by (apply (keeps_result _ _ _ _ _ (drawStroke_keeps_client _ _ _) Hs)).
      unfold online, outbox. rewrite Hc. by split; [|left].
  - cbv zeta. rewrite (onMove_idle rect e st Hd).
    destruct (publish_sends (intent "move" rect e st) st) as [Ho Hb]. split; [done|].
    destruct (online st); [right; split; [done|]; by exists "move" | by left].
Qed.

Lemma with_client_outbox (f : Client → Client) (k : JS num unit) st :
  (∀ c, sent (f c) = sent c) → keeps client k →
  outbox (with_client (λ c, modify (set_client (Some (f c)));; k) st).1 = outbox st.
Proof.
  intros Hf Hk. unfold with_client, mbind, JS_bind, read, modify. simpl.
  destruct (client st) as [c|] eqn:Hc; simpl; [|unfold outbox; by rewrite ?Hc].
  destruct (k (set_client (Some (f c)) st)) as [st1 r] eqn:Hr.
  assert (H1 : client st1 = Some (f c)).
  { change st1 with (st1, r).1. rewrite <- Hr. by rewrite Hk. }
  destruct r; simpl; unfold outbox; by rewrite H1, Hc, Hf.
Qed.

Lemma dispatch_sends ev st :
  outbox (dispatch ev st).1 = outbox st
  ∨ (is_move ev = true ∧ online st = true
     ∧ ∃ data, outbox (dispatch ev st).1 = outbox st ++ [outgoing st data]).
Proof.
  destruct ev; cbv beta iota delta [dispatch];
    try (left; apply keeps_client_outbox; keeps_all; reflexivity);
    try (destruct (onMove_sends rect e st) as [_ [H|[H1 [type H2]]]];
         [by left | right; simpl; eauto]).
  all: left; unfold with_client, mbind, JS_bind, read, modify, log; simpl.
  all: unfold outbox; destruct (client st) as [c|] eqn:Hc; simpl; by rewrite ?Hc.
Qed.

Lemma dispatch_offline ev st :
  online st = false → ev ≠ connect_success → online (dispatch ev st).1 = false.
Proof.
  intros Ho Hev.
  destruct ev; cbv beta iota delta [dispatch]; try done;
    try (rewrite <- Ho; apply keeps_client_outbox; keeps_all; reflexivity);
    try (rewrite <- Ho; apply onMove_sends).
  unfold with_client, mbind, JS_bind, read, modify, log. simpl.
  unfold online. destruct (client st) as [c|] eqn:Hc; simpl; by rewrite ?Hc.
Qed.

Lemma run_offline evs st :
  online st = false → connect_success ∉ evs →
  outbox (run evs st) = outbox st ∧ online (run evs st) = false.
Proof.
  revert st. induction evs as [|ev evs IH]; intros st Ho Hn; [done|].
  apply not_elem_of_cons in Hn as [Hev Hn].
  change (run (ev :: evs) st) with (run evs (dispatch ev st).1).
  destruct (IH (dispatch ev st).1) as [H1 H2]; [by apply dispatch_offline | done |].
  rewrite H1, H2. split; [|done].
  destruct (dispatch_sends ev st) as [H|(_ & H & _)]; [done | congruence].
Qed.

(** X8. A new instance sends nothing before it is connected: from
    construction until the connection succeeds, whatever else happens
    (moves, gestures, frames, messages, a failed or lost connection), no
    message is sent and the instance stays offline, with or without the
    Paho library.  Nothing is queued for later either: a move made while
    offline is never sent. *)
Theorem nothing_sent_before_connecting id color w Paho now evs :
  connect_success ∉ evs →
  let st := run evs (constructor id color w Paho now).1 in
  outbox st = [] ∧ online st = false.
Proof.
  intros Hn. cbv zeta.
  assert (Hoff : online (constructor id color w Paho now).1 = false
                 ∧ outbox (constructor id color w Paho now).1 = []).
  { rewrite constructor_state. unfold online, outbox. simpl. by destruct Paho. }
  destruct Hoff as [Hoff Hout].
  destruct (run_offline evs _ Hoff Hn) as [H1 H2]. by rewrite H1, Hout.
Qed.

(** X9. After the connection is lost nothing more is sent: the code has no
    reconnect logic, so unless the host reports a new success, every later
    move is dropped, also on an instance that was connected and sending. *)
Theorem nothing_sent_after_connection_lost errorMessage evs st :
  connect_success ∉ evs →
  outbox (run (connection_lost errorMessage :: evs) st) = outbox st
  ∧ online (run (connection_lost errorMessage :: evs) st) = false.
Proof.
  intros Hn.
  change (run (connection_lost errorMessage :: evs) st)
    with (run evs (dispatch (connection_lost errorMessage) st).1).
  assert (H : outbox (dispatch (connection_lost errorMessage) st).1 = outbox st
              ∧ online (dispatch (connection_lost errorMessage) st).1 = false).
  { simpl. unfold with_client, mbind, JS_bind, read, modify, log. simpl.
    unfold outbox, online. destruct (client st) as [c|] eqn:Hc; simpl; by rewrite ?Hc. }
  destruct H as [H1 H2].
  destruct (run_offline evs _ H2 Hn) as [H3 H4]. by rewrite H3, H4.
Qed.

(** X10. The send log only grows, by at most one message per pointer or
    touch move, and every message sent carries the local id and colour and
    goes to the one topic: nothing but a move sends, and no handler relays
    what it received. *)
Theorem only_moves_send evs st :
  ∃ datas,
    outbox (run evs st) = outbox st ++ (outgoing st <$> datas)
    ∧ (length datas ≤ length (List.filter is_move evs))%nat.
Proof.
  revert st. induction evs as [|ev evs IH]; intros st.
  { exists []. simpl. by rewrite app_nil_r. }
  destruct (IH (dispatch ev st).1) as (datas & H1 & H2).
  assert (Ho : ∀ data, outgoing (dispatch ev st).1 data = outgoing st data).
  { intros data. unfold outgoing. by rewrite dispatch_keeps_myId, dispatch_keeps_myColor. }
  change (run (ev :: evs) st) with (run evs (dispatch ev st).1). rewrite H1.
  rewrite (list_fmap_ext (outgoing (dispatch ev st).1) (outgoing st) datas) by (intros; apply Ho).
  destruct (dispatch_sends ev st) as [H|(Hm & _ & data & H)]; rewrite H.
  - exists datas. split; [done|]. simpl. destruct (is_move ev); simpl; lia.
  - exists (data :: datas). split; [by rewrite <- app_assoc|]. simpl. rewrite Hm. simpl. lia.
Qed.

(** *** The canvas size *)

Lemma dispatch_canvas ev st :
  canvas_width (dispatch ev st).1
  = match ev with window_resize w => w | _ => canvas_width st end
  ∧ (canvas_height st = of_Z 300 → canvas_height (dispatch ev st).1 = of_Z 300).
Proof.
  destruct ev; cbv beta iota delta [dispatch]; try (split; [reflexivity|done]);
    (split; [|intros <-]);
    match goal with
    | |- ?f (?m ?s).1 = _ => assert (Hk : keeps f m) by (keeps_all; reflexivity); apply Hk
    end.
Qed.

(** X11. From construction on, the canvas is 300 high whatever happens, and
    as wide as the container was at the last resize: the height never
    follows the container. *)
Theorem canvas_height_is_fixed id color w Paho now evs :
  let st := run evs (constructor id color w Paho now).1 in
  canvas_height st = of_Z 300 ∧ canvas_width st = last_width w evs.
Proof.
  cbv zeta.
  assert (H0 : canvas_height (constructor id color w Paho now).1 = of_Z 300
               ∧ canvas_width (constructor id color w Paho now).1 = w).
  { by rewrite constructor_state. }
  revert H0. generalize (constructor id color w Paho now).1. revert w.
  induction evs as [|ev evs IH]; intros w st [Hh Hw]; [done|].
  simpl. destruct (dispatch_canvas ev st) as [H1 H2].
  apply IH. split; [by apply H2|]. rewrite H1. destruct ev; simpl; congruence.
Qed.

(** *** The peer table *)






Lemma drawStroke_bad_colour st a b c d color e :
  ToString color = Throw e →
  drawStroke (point (VNum a) (VNum b)) (point (VNum c) (VNum d)) color st
  = (set_ctx (λ l, l ++ [beginPath;
                         moveTo (num_mul a (canvas_width st)) (num_mul b (canvas_height st));
                         lineTo (num_mul c (canvas_width st)) (num_mul d (canvas_height st))])
       st,
     Throw e).
Proof.
  intros Hs.
  unfold drawStroke, assign_style, mbind, JS_bind, read, eval, modify, call. simpl.
  rewrite Hs. unfold set_ctx. simpl. repeat rewrite <- app_assoc. reflexivity.
Qed.

(** X14. A draw whose colour has no string conversion fails half way: the
    path from the peer's last position to the new one is begun and traced
    but never stroked, the error is logged, and the peer's record keeps its
    old position and its old [lastSeen], so the peer goes on ageing although
    it is sending. *)
Theorem failed_stroke_keeps_the_record st message now data key u a b x y color e :
  filed_under (myId st) message key data →
  get data "type" = Normal (VStr "draw") →
  get data "x" = Normal (VNum x) → get data "y" = Normal (VNum y) →
  get data "color" = Normal color →
  ToString color = Throw e →
  users st !! key = Some u → user_x u = VNum a → user_y u = VNum b →
  onMessageArrived message now st
  = (set_console (λ l, l ++ [console_error "MQTT Parse Error"])
       (set_ctx (λ l, l ++ [beginPath;
                            moveTo (num_mul a (canvas_width st)) (num_mul b (canvas_height st));
                            lineTo (num_mul x (canvas_width st)) (num_mul y (canvas_height st))])
          st),
     Normal tt).
Proof.
  intros Hf Ht Hx Hy Hc Hs Hu Ha Hb.
  rewrite (onMessageArrived_draw st message now data key (VNum x) (VNum y) color) by done.
  rewrite Hu. simpl. rewrite Ha, Hb. simpl.
  by rewrite (drawStroke_bad_colour st a b x y color e Hs).
Qed.

(** X15. A payload that is JSON but no object: [null] is the only one that
    is rejected (logged, nothing else changes).  A number, a string, a
    boolean or an array is handled as an event without id and type: it puts
    the record of a peer called "undefined" into the table, the empty record
    when there was none. *)
Theorem payload_that_is_no_object st message now data :
  JSON_parse (payloadString message) = Some data →
  (∀ properties, data ≠ VObj properties) →
  onMessageArrived message now st
  = (match data with
     | VNull | VUndefined => set_console (λ l, l ++ [console_error "MQTT Parse Error"]) st
     | _ => set_users <["undefined" := default empty_user (users st !! "undefined")]> st
     end,
     Normal tt).
Proof.
  intros Hp Hno.
  destruct data as [| |b|n|s|elements|properties];
    try (unfold onMessageArrived, try_catch, mbind, JS_bind, eval, read, log, modify;
         rewrite Hp; reflexivity);
    try (apply (onMessageArrived_other st message now _ "undefined" VUndefined);
         [exists VUndefined; by repeat split | reflexivity | reflexivity | reflexivity]).
  by destruct (Hno properties).
Qed.


(** X17. Handling a message is local to the table, the canvas and the
    console: it never starts, moves or ends the local stroke, never touches
    the client (nothing received is sent on), and never resizes the canvas
    or changes the identity. *)
Theorem message_leaves_the_local_side message now st :
  let st' := (onMessageArrived message now st).1 in
  isDrawing st' = isDrawing st ∧ lastPos st' = lastPos st ∧ client st' = client st
  ∧ canvas_width st' = canvas_width st ∧ canvas_height st' = canvas_height st
  ∧ myId st' = myId st ∧ myColor st' = myColor st.
Proof.
  cbv zeta. split_and!;
    match goal with
    | |- ?f (?m st).1 = _ => assert (Hk : keeps f m) by (keeps_all; reflexivity); apply Hk
    end.
Qed.

Lemma dispatch_local ev st :
  is_remote ev = false → users (dispatch ev st).1 = users st.
Proof.
  intros Hr.
  destruct ev; try discriminate Hr; cbv beta iota delta [dispatch];
    match goal with
    | |- ?f (?m st).1 = _ => assert (Hk : keeps f m) by (keeps_all; reflexivity); apply Hk
    end.
Qed.

(** X18. The peer table belongs to the bus and the frame loop: no resize,
    pointer, touch or connection event changes it, whatever the order and
    the number of such events. *)
Theorem local_events_keep_the_table evs st :
  Forall (λ ev, is_remote ev = false) evs → users (run evs st) = users st.
Proof.
  revert st. induction evs as [|ev evs IH]; intros st Hall; [done|].
  apply Forall_cons in Hall as [Hev Hall].
  change (run (ev :: evs) st) with (run evs (dispatch ev st).1).
  rewrite IH by done. by apply dispatch_local.
Qed.

(** *** From one instance to another *)

Lemma dispatch_message message now st :
  is_Some (client st) →
  dispatch (message_arrived message now) st = onMessageArrived message now st.
Proof.
  intros [c Hc]. simpl. unfold with_client, mbind, JS_bind, read. by rewrite Hc.
Qed.

Lemma outgoing_filed_under (sender receiver : LiveCanvas num) type rect e :
  myId sender ≠ myId receiver →
  reads_back (stamped sender (intent type rect e sender)) →
  filed_under (myId receiver) (outgoing sender (intent type rect e sender)) (myId sender)
    (stamped sender (intent type rect e sender)).
Proof.
  intros Hne Hrb. exists (VStr (myId sender)). split_and!.
  - exact Hrb.
  - reflexivity.
  - simpl. by apply String.eqb_neq.
  - reflexivity.
Qed.

Lemma remote_draws rect (sender : LiveCanvas num) es : ∀ (receiver : LiveCanvas num) ts u a b,
  myId sender ≠ myId receiver → is_Some (client receiver) →
  users receiver !! myId sender = Some u → user_x u = VNum a → user_y u = VNum b →
  length ts = length es →
  (∀ e, e ∈ es → reads_back (stamped sender (intent "draw" rect e sender))) →
  ∀ w h, w = canvas_width receiver → h = canvas_height receiver →
  ctx (run (arrivals ((λ e, outgoing sender (intent "draw" rect e sender)) <$> es) ts) receiver)
  = ctx receiver
    ++ polyline (VStr (myColor sender)) (num_mul a w, num_mul b h)
         ((λ e,
            (num_mul (num_div (num_sub (clientX e) (rect_left rect)) (canvas_width sender)) w,
             num_mul (num_div (num_sub (clientY e) (rect_top rect)) (canvas_height sender)) h))
          <$> es).
Proof.
  induction es as [|e es IH]; intros receiver ts u a b Hne Hcl Hu Ha Hb Hlen Hrb w h Hw Hh.
  { simpl. by rewrite app_nil_r. }
  destruct ts as [|t ts]; [discriminate Hlen|]. injection Hlen as Hlen.
  change (run (arrivals ((λ e, outgoing sender (intent "draw" rect e sender)) <$> e :: es)
                 (t :: ts)) receiver)
    with (run (arrivals ((λ e, outgoing sender (intent "draw" rect e sender)) <$> es) ts)
            (dispatch (message_arrived (outgoing sender (intent "draw" rect e sender)) t)
               receiver).1).
  rewrite dispatch_message by done.
  rewrite (onMessageArrived_draw receiver _ t (stamped sender (intent "draw" rect e sender))
             (myId sender)
             (VNum (num_div (num_sub (clientX e) (rect_left rect)) (canvas_width sender)))
             (VNum (num_div (num_sub (clientY e) (rect_top rect)) (canvas_height sender)))
             (VStr (myColor sender)))
    by (first [ apply outgoing_filed_under; [done | apply Hrb; left] | reflexivity ]).
  rewrite Hu. cbn [from_option id]. rewrite Ha, Hb. cbn [is_defined].
  rewrite (drawStroke_points receiver a b _ _ (VStr (myColor sender)) (myColor sender))
    by reflexivity.
  cbn [fst].
  match goal with |- context [run _ ?s] =>
    rewrite (IH s ts
               (User (VNum (num_div (num_sub (clientX e) (rect_left rect)) (canvas_width sender)))
                     (VNum (num_div (num_sub (clientY e) (rect_top rect)) (canvas_height sender)))
                     (VStr (myColor sender)) (Some t))
               (num_div (num_sub (clientX e) (rect_left rect)) (canvas_width sender))
               (num_div (num_sub (clientY e) (rect_top rect)) (canvas_height sender))
               Hne Hcl (lookup_insert_eq _ _ _) eq_refl eq_refl Hlen
               (λ e' He', Hrb e' (proj2 (elem_of_cons _ _ _) (or_intror He'))) w h Hw Hh)
  end.
  simpl. subst w h. by rewrite <- app_assoc.
Qed.

(** X19. What one instance draws, the other sees.  A connected instance
    moves the pointer to [e0], presses there and drags through [es]; the
    messages it sent are delivered in order to another instance, whose
    parser reads them back.  Then the receiver has stroked the same line as
    the sender, in the sender's colour, each point at the same fraction of
    its own canvas; what the receiver knew of the sender before plays no
    part. *)
Theorem peer_sees_the_same_stroke rect e0 es (sender receiver : LiveCanvas num) c t0 ts :
  client sender = Some c → isConnected c = true → isDrawing sender = false →
  is_Some (client receiver) → myId sender ≠ myId receiver →
  length ts = length es →
  reads_back (stamped sender (intent "move" rect e0 sender)) →
  (∀ e, e ∈ es → reads_back (stamped sender (intent "draw" rect e sender))) →
  let sender' :=
    run (mousemove rect e0 :: mousedown rect e0 :: (mousemove rect <$> es)) sender in
  let receiver' := run (arrivals (sent_since sender sender') (t0 :: ts)) receiver in
  ctx sender' = ctx sender
                ++ polyline (VStr (myColor sender)) (pixel rect e0 sender)
                     ((λ e, pixel rect e sender) <$> es)
  ∧ ctx receiver' = ctx receiver
                    ++ polyline (VStr (myColor sender)) (remote_pixel rect e0 sender receiver)
                         ((λ e, remote_pixel rect e sender receiver) <$> es).
Proof.
  intros Hc Hconn Hidle Hcl Hne Hlen Hrb0 Hrb sender' receiver'.
  assert (Hs : ctx sender' = ctx sender
                ++ polyline (VStr (myColor sender)) (pixel rect e0 sender)
                     ((λ e, pixel rect e sender) <$> es)
               ∧ outbox sender'
                 = outbox sender
                   ++ outgoing sender (intent "move" rect e0 sender)
                      :: ((λ e, outgoing sender (intent "draw" rect e sender)) <$> es)).
  { unfold sender'.
    change (run (mousemove rect e0 :: mousedown rect e0 :: (mousemove rect <$> es)) sender)
      with (run (mousemove rect <$> es)
              (onDown rect e0 (onMove rect e0 sender).1).1).
    rewrite (onMove_idle rect e0 sender Hidle), (publish_with_client _ _ c Hc), Hconn.
    cbn [fst]. rewrite onDown_state. cbn [fst].
    match goal with |- context [run _ ?s] =>
      destruct (drawing_moves rect es s
                  {| isConnected := true; subscriptions := subscriptions c;
                     sent := sent c ++ [outgoing sender (intent "move" rect e0 sender)] |}
                  (num_div (num_sub (clientX e0) (rect_left rect)) (canvas_width sender))
                  (num_div (num_sub (clientY e0) (rect_top rect)) (canvas_height sender))
                  eq_refl eq_refl eq_refl) as (Hctx & Hout & _)
    end.
    split; [exact Hctx|]. rewrite Hout. unfold outbox. simpl. rewrite Hc.
    by rewrite <- app_assoc. }
  destruct Hs as [Hctx Hout]. split; [exact Hctx|].
  unfold receiver', sent_since. rewrite Hout, drop_app_length.
  change (run (arrivals (outgoing sender (intent "move" rect e0 sender)
                         :: ((λ e, outgoing sender (intent "draw" rect e sender)) <$> es))
                 (t0 :: ts)) receiver)
    with (run (arrivals ((λ e, outgoing sender (intent "draw" rect e sender)) <$> es) ts)
            (dispatch (message_arrived (outgoing sender (intent "move" rect e0 sender)) t0)
               receiver).1).
  rewrite dispatch_message by done.
  rewrite (onMessageArrived_move receiver _ t0 (stamped sender (intent "move" rect e0 sender))
             (myId sender)
             (VNum (num_div (num_sub (clientX e0) (rect_left rect)) (canvas_width sender)))
             (VNum (num_div (num_sub (clientY e0) (rect_top rect)) (canvas_height sender)))
             (VStr (myColor sender)))
    by (first [ by apply outgoing_filed_under | reflexivity ]).
  cbn [fst].
  match goal with |- context [run _ ?s] =>
    rewrite (remote_draws rect sender es s ts
               (User (VNum (num_div (num_sub (clientX e0) (rect_left rect)) (canvas_width sender)))
                     (VNum (num_div (num_sub (clientY e0) (rect_top rect)) (canvas_height sender)))
                     (VStr (myColor sender)) (Some t0))
               (num_div (num_sub (clientX e0) (rect_left rect)) (canvas_width sender))
               (num_div (num_sub (clientY e0) (rect_top rect)) (canvas_height sender))
               Hne Hcl (lookup_insert_eq _ _ _) eq_refl eq_refl Hlen Hrb
               (canvas_width receiver) (canvas_height receiver) eq_refl eq_refl)
  end.
  reflexivity.
Qed.

Lemma stamped_id st data : get (stamped st data) "id" = Normal (VStr (myId st)).
Proof.
  unfold stamped, get. by rewrite assoc_set_ne, assoc_set_eq.
Qed.

(** X20. An instance never draws its own echo: whatever it publishes, with
    whatever fields, comes back from the bus carrying the local id (an [id]
    in the data is overwritten) and is dropped without a trace, at any later
    time and in any later state of the instance. *)
Theorem own_echo_is_dropped st st' data now :
  reads_back (stamped st data) → myId st' = myId st →
  onMessageArrived (outgoing st data) now st' = (st', Normal tt).
Proof.
  intros Hrb Hid.
  unfold onMessageArrived, try_catch, mbind, JS_bind, eval, read.
  change (payloadString (outgoing st data)) with (JSON_stringify (stamped st data)).
  rewrite Hrb, stamped_id. simpl. by rewrite Hid, String.eqb_refl.
Qed.

(** *** A frame with nothing to show *)



End Further.

(** ** The further properties on the sample runs *)

Ltac by_run := vm_compute; reflexivity.



(** X5: a drag on a new instance. *)
Lemma only_a_frame_can_throw_witness :
  (dispatch (mousemove sample_rect sample_drag)
     (run [mousedown sample_rect sample_press]
        (constructor "user_42" "hsl(200, 100%, 70%)" 800%float true 0).1)).2
  = Normal tt.
Proof.
  apply (only_a_frame_can_throw "user_42" "hsl(200, 100%, 70%)" 800%float 0
           [mousedown sample_rect sample_press] (mousemove sample_rect sample_drag)).
  intros now. discriminate.
Defined.

(** X6: press at (400, 150) and drag to (480, 150) while connected. *)
Lemma gesture_is_a_polyline_witness :
  let st' := run (mousedown sample_rect sample_press :: (mousemove sample_rect <$> [sample_drag]))
               connected_canvas in
  ctx st' = ctx connected_canvas
            ++ segment 400%float 150%float 480%float 150%float (VStr "hsl(200, 100%, 70%)")
  ∧ outbox st'
    = [outgoing connected_canvas (intent "draw" sample_rect sample_drag connected_canvas)]
  ∧ users st' = ∅ ∧ isDrawing st' = true.
Proof.
  destruct (gesture_is_a_polyline sample_rect sample_press [sample_drag] connected_canvas
              {| isConnected := true; subscriptions := [topic]; sent := [] |} eq_refl)
    as (Hctx & Hout & Hu & Hd).
  split_and!; [etrans; [exact Hctx|by_run] | exact Hout | exact Hu | exact Hd].
Defined.

(** X7: the button is released, then the pointer moves on. *)
Lemma moves_after_release_draw_nothing_witness :
  let st := run [mousedown sample_rect sample_press] connected_canvas in
  let st' := run (mouseup :: (mousemove sample_rect <$> [sample_drag])) st in
  ctx st' = ctx st
  ∧ outbox st' = [outgoing st (intent "move" sample_rect sample_drag st)]
  ∧ users st' = users st ∧ isDrawing st' = false ∧ lastPos st' = lastPos st.
Proof.
  apply (moves_after_release_draw_nothing sample_rect [sample_drag]
           (run [mousedown sample_rect sample_press] connected_canvas)
           {| isConnected := true; subscriptions := [topic]; sent := [] |}).
  reflexivity.
Defined.

(** X8: a gesture, a failed connection, a frame and a message on the
    instance that has not connected. *)
Lemma nothing_sent_before_connecting_witness :
  let st := run [mousedown sample_rect sample_press; mousemove sample_rect sample_drag;
                 connect_failure; animation_frame 5;
                 message_arrived (message_of text_move) 6] sample_canvas in
  outbox st = [] ∧ online st = false.
Proof.
  apply (nothing_sent_before_connecting "user_42" "hsl(200, 100%, 70%)" 800%float true 0).
  rewrite !not_elem_of_cons. split_and!; try discriminate. apply not_elem_of_nil.
Defined.

(** X9: the connection is lost, then a gesture. *)
Lemma nothing_sent_after_connection_lost_witness :
  let evs := [mousedown sample_rect sample_press; mousemove sample_rect sample_drag] in
  outbox (run (connection_lost "timeout" :: evs) connected_canvas) = outbox connected_canvas
  ∧ online (run (connection_lost "timeout" :: evs) connected_canvas) = false.
Proof.
  apply (nothing_sent_after_connection_lost "timeout" _ connected_canvas).
  rewrite !not_elem_of_cons. split_and!; try discriminate. apply not_elem_of_nil.
Defined.



(** X14: ["u1"] is at (0.5, 0.5); its draw to (0.6, 0.5) has the colour
    [{"toString":1}]. *)
Lemma failed_stroke_keeps_the_record_witness :
  onMessageArrived (R := wider_runtime) (message_of text_bad_colour) 4000 one_peer
  = (set_console (λ l, l ++ [console_error "MQTT Parse Error"])
       (set_ctx (λ l, l ++ [beginPath; moveTo 400%float 150%float; lineTo 480%float 150%float])
          one_peer),
     Normal tt)
  ∧ users (onMessageArrived (R := wider_runtime) (message_of text_bad_colour) 4000 one_peer).1
      !! "u1"
    = Some (User (VNum 0.5%float) (VNum 0.5%float) (VStr "red") (Some 1000)).
Proof.
  assert (H : onMessageArrived (R := wider_runtime) (message_of text_bad_colour) 4000 one_peer
              = (set_console (λ l, l ++ [console_error "MQTT Parse Error"])
                   (set_ctx (λ l, l ++ [beginPath;
                                        moveTo (num_mul 0.5%float (canvas_width one_peer))
                                               (num_mul 0.5%float (canvas_height one_peer));
                                        lineTo (num_mul 0.6%float (canvas_width one_peer))
                                               (num_mul 0.5%float (canvas_height one_peer))])
                      one_peer),
                 Normal tt)).
  { apply (failed_stroke_keeps_the_record (R := wider_runtime) one_peer
             (message_of text_bad_colour) 4000
             (VObj [("type", VStr "draw"); ("x", VNum 0.6%float); ("y", VNum 0.5%float);
                    ("id", VStr "u1"); ("color", VObj [("toString", VNum 1%float)])])
             "u1" (User (VNum 0.5%float) (VNum 0.5%float) (VStr "red") (Some 1000))
             0.5%float 0.5%float 0.6%float 0.5%float
             (VObj [("toString", VNum 1%float)]) TypeError);
      try reflexivity.
    exists (VStr "u1"). split_and!; reflexivity. }
  rewrite H. split; [|reflexivity]. by_run.
Defined.

(** X15: the payload [42]. *)
Lemma payload_that_is_no_object_witness :
  onMessageArrived (R := wider_runtime) (message_of text_number) 1000 connected_canvas
  = (set_users <["undefined" := empty_user]> connected_canvas, Normal tt).
Proof.
  apply (payload_that_is_no_object (R := wider_runtime) connected_canvas
           (message_of text_number) 1000 (VNum 42%float)); [reflexivity|discriminate].
Defined.


(** X18: a resize, a gesture and a lost connection with ["u1"] in the
    table. *)
Lemma local_events_keep_the_table_witness :
  users (run [window_resize 500%float; mousedown sample_rect sample_press;
              mousemove sample_rect sample_drag; mouseup; connection_lost "timeout"]
           one_peer)
  = users one_peer.
Proof.
  apply (local_events_keep_the_table _ one_peer). repeat constructor.
Defined.

(** X19: user_42, on a canvas 800 wide, moves to the middle, presses and
    drags 80 pixels to the right; user_7, on a canvas 400 wide, sees the
    stroke at half the width: from (200, 150) to (240, 150). *)
Lemma peer_sees_the_same_stroke_witness :
  let sender' :=
    run (R := relay_runtime)
      (mousemove sample_rect sample_press :: mousedown sample_rect sample_press
       :: (mousemove sample_rect <$> [sample_drag])) connected_canvas in
  let receiver' :=
    run (R := relay_runtime)
      (arrivals (sent_since connected_canvas sender') (1000 :: [2000])) peer_canvas in
  ctx sender' = ctx connected_canvas
                ++ segment 400%float 150%float 480%float 150%float
                     (VStr "hsl(200, 100%, 70%)")
  ∧ ctx receiver' = ctx peer_canvas
                    ++ segment 200%float 150%float 240%float 150%float
                         (VStr "hsl(200, 100%, 70%)").
Proof.
  destruct (peer_sees_the_same_stroke (R := relay_runtime) sample_rect sample_press
              [sample_drag] connected_canvas peer_canvas
              {| isConnected := true; subscriptions := [topic]; sent := [] |} 1000 [2000])
    as [Hs Hr]; try reflexivity.
  - by eexists.
  - discriminate.
  - intros e He. apply list_elem_of_singleton in He as ->. reflexivity.
  - split; (etrans; [eassumption|by_run]).
Defined.

(** X20: the move user_42 publishes comes back while a stroke is in
    progress. *)
Lemma own_echo_is_dropped_witness :
  let st' := run [mousedown sample_rect sample_press] connected_canvas in
  onMessageArrived (R := relay_runtime)
    (outgoing (R := relay_runtime) connected_canvas
       (intent "move" sample_rect sample_press connected_canvas)) 1000 st'
  = (st', Normal tt).
Proof.
  apply (own_echo_is_dropped (R := relay_runtime) connected_canvas); reflexivity.
Defined.

